(** * scm-fsim: the triplet feature pipeline and the shapes of the siamese model

    A shallow embedding of [src/data.py] (dataset, augmentation, feature
    builder, collator) and of [src/models/bert_esim.py], on the shapes of
    its tensors and, for the dispatch on the mode, on their values, with
    the properties the specification states about them.

    Python integers are [Z], Python lists are [list], an exception is the
    [Raise] outcome of the [result] type, and a function that mutates its
    arguments in place returns the new values. *)

From Stdlib Require Import String Ascii.
From Stdlib Require Import List ZArith Lia Bool Permutation.
From Stdlib Require Import Reals Lra.
Import ListNotations.

Local Open Scope Z_scope.

(** ** Python outcomes *)

Inductive exn : Type :=
| IndexError
| AssertionError
| AttributeError
| KeyError
| ValueError
| RuntimeError.

Inductive result (A : Type) : Type :=
| Ok (a : A)
| Raise (e : exn).

Arguments Ok {A} a.
Arguments Raise {A} e.

Definition bind {A B : Type} (r : result A) (k : A -> result B) : result B :=
  match r with
  | Ok a => k a
  | Raise e => Raise e
  end.

Notation "x <- c ;; k" := (bind c (fun x => k))
  (at level 61, c at next level, right associativity).
Notation "' p <- c ;; k" := (bind c (fun x => match x with p => k end))
  (at level 61, p pattern, c at next level, right associativity).

(** [assert cond] *)
Definition py_assert (cond : bool) : result unit :=
  if cond then Ok tt else Raise AssertionError.

(** ** Python lists *)

Section PyList.
Context {A : Type}.

(** [len(l)] *)
Definition len (l : list A) : Z := Z.of_nat (length l).

(** [l.pop(0)]: the first element and the list that is left; an empty
    list raises. *)
Definition pop0 (l : list A) : result (A * list A) :=
  match l with
  | [] => Raise IndexError
  | x :: l' => Ok (x, l')
  end.

(** [l[start:]], for any integer [start]: a negative start counts from
    the end, and both ends saturate. *)
Definition slice_from (l : list A) (start : Z) : list A :=
  if start <? 0
  then skipn (Z.to_nat (Z.max 0 (len l + start))) l
  else skipn (Z.to_nat start) l.

(** [[x] * n]: no element when [n] is negative. *)
Definition py_repeat (x : A) (n : Z) : list A := repeat x (Z.to_nat n).

(** [l[i]] with Python's negative indices. *)
Definition py_index (l : list A) (i : Z) : result A :=
  let j := if i <? 0 then i + len l else i in
  if j <? 0 then Raise IndexError
  else match nth_error l (Z.to_nat j) with
       | Some x => Ok x
       | None => Raise IndexError
       end.
End PyList.

(** [sum(l)] *)
Definition py_sum (l : list Z) : Z := fold_left Z.add l 0.

(** A loop that stops at the first exception. *)
Fixpoint map_result {A B : Type} (f : A -> result B) (l : list A)
  : result (list B) :=
  match l with
  | [] => Ok []
  | x :: l' =>
      y <- f x ;;
      ys <- map_result f l' ;;
      Ok (y :: ys)
  end.

(** ** src/data.py *)

Module Data.

(** *** The tokenizer capability

    The tokenizer is an external collaborator: [tokenize] turns a text into
    tokens, and [convert_tokens_to_ids] looks every token up in the
    vocabulary, one id per token. *)

Definition token : Type := string.

Class Tokenizer : Type := {
  tokenize : string -> list token;
  convert_token_to_id : token -> Z
}.

Definition convert_tokens_to_ids `{Tokenizer} (tokens : list token) : list Z :=
  map convert_token_to_id tokens.

(** *** [_truncate_seq_pair]

    The [while True] loop, one iteration per unit of fuel.  [loop_state]
    is the pair of lists the loop mutates in place. *)

Definition loop_state : Type := (list token * list token)%type.

Definition total_length (st : loop_state) : Z := len (fst st) + len (snd st).

Inductive loop_outcome : Type :=
| Returned (st : loop_state)
| Raised (e : exn)
| OutOfFuel.

Fixpoint truncate_loop (fuel : nat) (tokens_a tokens_b : list token)
    (max_length : Z) : loop_outcome :=
  match fuel with
  | O => OutOfFuel
  | S fuel' =>
      if len tokens_a + len tokens_b <=? max_length then
        Returned (tokens_a, tokens_b)
      else if len tokens_b <? len tokens_a then
        match pop0 tokens_a with
        | Ok (_, tokens_a') => truncate_loop fuel' tokens_a' tokens_b max_length
        | Raise e => Raised e
        end
      else
        match pop0 tokens_b with
        | Ok (_, tokens_b') => truncate_loop fuel' tokens_a tokens_b' max_length
        | Raise e => Raised e
        end
  end.

(** Every iteration that does not leave the loop pops one token, so one
    more unit of fuel than there are tokens is enough
    ([truncate_loop_fuel]). *)
Definition truncate_fuel (tokens_a tokens_b : list token) : nat :=
  S (length tokens_a + length tokens_b)%nat.

Definition _truncate_seq_pair (tokens_a tokens_b : list token) (max_length : Z)
  : result loop_state :=
  match truncate_loop (truncate_fuel tokens_a tokens_b) tokens_a tokens_b max_length with
  | Returned st => Ok st
  | Raised e => Raise e
  | OutOfFuel => Raise RuntimeError
  end.

(** The loop as the specification words it: while the two sequences hold
    more than the budget, one token leaves the front of the longer one, and
    of the second one when they are equally long. *)
Inductive spec_remove_one : loop_state -> loop_state -> Prop :=
| remove_front_a (x : token) (a b : list token) :
    len b < len (x :: a) ->
    spec_remove_one (x :: a, b) (a, b)
| remove_front_b (y : token) (a b : list token) :
    len a <= len (y :: b) ->
    spec_remove_one (a, y :: b) (a, b).

Inductive spec_truncation (budget : Z) : loop_state -> loop_state -> Prop :=
| spec_stop (st : loop_state) :
    total_length st <= budget ->
    spec_truncation budget st st
| spec_continue (st st' st'' : loop_state) :
    budget < total_length st ->
    spec_remove_one st st' ->
    spec_truncation budget st' st'' ->
    spec_truncation budget st st''.

(** *** [InputExample._text_pair_to_feature]

    [text_b] is [None] or a string; [if text_b:] holds for a string that is
    not empty. *)

Definition truthy_text (text : option string) : option string :=
  match text with
  | Some EmptyString => None
  | other => other
  end.

(** [if tokens_b:] *)
Definition truthy_tokens (tokens : option (list token)) : option (list token) :=
  match tokens with
  | Some [] => None
  | other => other
  end.

(** The tokens the second sequence adds to the feature: the sequence and
    its [SEP], unless it is absent or empty. *)
Definition second_segment_length (tokens_b : option (list token)) : Z :=
  match truthy_tokens tokens_b with
  | Some tokens_b => len tokens_b + 1
  | None => 0
  end.

Definition CLS : token := "[CLS]"%string.
Definition SEP : token := "[SEP]"%string.

(** A feature as the function returns it:
    [(input_ids, segment_ids, input_mask)]. *)
Definition feature : Type := (list Z * list Z * list Z)%type.

Section FeatureBuilder.
Context `{Tokenizer}.

(** The first part of the function: tokenize, then truncate. *)
Definition truncated_tokens (text_a : string) (text_b : option string)
    (max_seq_length : Z) : result (list token * option (list token)) :=
  let tokens_a := tokenize text_a in
  match truthy_text text_b with
  | Some text_b =>
      let tokens_b := tokenize text_b in
      '(tokens_a, tokens_b) <- _truncate_seq_pair tokens_a tokens_b (max_seq_length - 3) ;;
      Ok (tokens_a, Some tokens_b)
  | None =>
      if max_seq_length - 2 <? len tokens_a
      then Ok (slice_from tokens_a (len tokens_a - (max_seq_length - 2)), None)
      else Ok (tokens_a, None)
  end.

(** The second part: special tokens, ids, mask, padding and the three
    assertions. *)
Definition assemble_feature (tokens_a : list token)
    (tokens_b : option (list token)) (max_seq_length : Z) : result feature :=
  let tokens := [CLS] ++ tokens_a ++ [SEP] in
  let segment_ids := py_repeat 0 (len tokens) in
  let '(tokens, segment_ids) :=
    match truthy_tokens tokens_b with
    | Some tokens_b =>
        (tokens ++ tokens_b ++ [SEP],
         segment_ids ++ py_repeat 1 (len tokens_b + 1))
    | None => (tokens, segment_ids)
    end in
  let input_ids := convert_tokens_to_ids tokens in
  let input_mask := py_repeat 1 (len input_ids) in
  let padding := py_repeat 0 (max_seq_length - len input_ids) in
  let input_ids := input_ids ++ padding in
  let input_mask := input_mask ++ padding in
  let segment_ids := segment_ids ++ padding in
  _ <- py_assert (len input_ids =? max_seq_length) ;;
  _ <- py_assert (len input_mask =? max_seq_length) ;;
  _ <- py_assert (len segment_ids =? max_seq_length) ;;
  Ok (input_ids, segment_ids, input_mask).

Definition _text_pair_to_feature (text_a : string) (text_b : option string)
    (max_seq_length : Z) : result feature :=
  '(tokens_a, tokens_b) <- truncated_tokens text_a text_b max_seq_length ;;
  assemble_feature tokens_a tokens_b max_seq_length.

(** The mask of a feature, its third component. *)
Definition input_mask_of (f : feature) : list Z := snd f.
Definition segment_ids_of (f : feature) : list Z := snd (fst f).
Definition input_ids_of (f : feature) : list Z := fst (fst f).
End FeatureBuilder.

(** A tokenizer to run the functions on: words are separated by spaces,
    and the id of a token is its length. *)
Fixpoint split_spaces (word : string) (text : string) : list string :=
  match text with
  | EmptyString =>
      match word with
      | EmptyString => []
      | _ => [word]
      end
  | String c rest =>
      if Ascii.eqb c " "%char then
        match word with
        | EmptyString => split_spaces EmptyString rest
        | _ => word :: split_spaces EmptyString rest
        end
      else split_spaces (word ++ String c EmptyString) rest
  end.

Definition whitespace_tokenizer : Tokenizer := {|
  tokenize := split_spaces EmptyString;
  convert_token_to_id := fun t => Z.of_nat (String.length t)
|}.

(** The same tokenizer with a vocabulary of 30522 ids: the id of a token
    is its length within the vocabulary. *)
Definition vocabulary_tokenizer : Tokenizer := {|
  tokenize := split_spaces EmptyString;
  convert_token_to_id := fun t => Z.of_nat (String.length t) mod 30522
|}.

(** *** [TripletTextDataset]

    A label as Python holds it: [Some s] is the string [s], [None] is a
    value that is no string (the [None] placeholder, or the [NaN] pandas
    puts in a missing cell).  The code only ever compares a label with
    ["B"] and rows with each other, which does not tell these apart. *)

Definition pylabel : Type := option string.

Definition label_is_B (label : pylabel) : bool :=
  match label with
  | Some s => String.eqb s "B"
  | None => false
  end.

(** [0 if label == "B" else 1] *)
Definition numeric_label (label : pylabel) : Z :=
  if label_is_B label then 0 else 1.

Record TripletTextDataset : Type := {
  text_a_list : list string;
  text_b_list : list string;
  text_c_list : list string;
  label_list : list Z
}.

Definition __init__ (text_a_list text_b_list text_c_list : list string)
    (label_list : option (list pylabel)) : result TripletTextDataset :=
  let label_list :=
    match label_list with
    | None | Some [] => repeat (@None string) (length text_a_list)
    | Some labels => labels
    end in
  _ <- py_assert (forallb (fun text_list => len label_list =? len text_list)
                    [text_a_list; text_b_list; text_c_list]) ;;
  Ok {| text_a_list := text_a_list;
        text_b_list := text_b_list;
        text_c_list := text_c_list;
        label_list := map numeric_label label_list |}.

Definition __len__ (self : TripletTextDataset) : Z := len (label_list self).

Definition __getitem__ (self : TripletTextDataset) (index : Z)
  : result (string * string * string * Z) :=
  text_a <- py_index (text_a_list self) index ;;
  text_b <- py_index (text_b_list self) index ;;
  text_c <- py_index (text_c_list self) index ;;
  label <- py_index (label_list self) index ;;
  Ok (text_a, text_b, text_c, label).

(** A dataframe, row by row, over the columns the code reads: ["A"], ["B"],
    ["C"] and ["label"].  [has_texts] and [has_label] say whether the
    columns exist; the cells of a column that does not exist are not read. *)
Record Row : Type := {
  col_A : string;
  col_B : string;
  col_C : string;
  col_label : pylabel
}.

Record DataFrame : Type := {
  has_texts : bool;
  has_label : bool;
  rows : list Row
}.

(** [df[name].tolist()] for a text column. *)
Definition text_column (df : DataFrame) (col : Row -> string) : result (list string) :=
  if has_texts df then Ok (map col (rows df)) else Raise KeyError.

(** [df["label"].tolist()] *)
Definition label_column (df : DataFrame) : result (list pylabel) :=
  if has_label df then Ok (map col_label (rows df)) else Raise KeyError.

(** [df["label"] = value] *)
Definition set_label (value : string) (df : DataFrame) : DataFrame :=
  {| has_texts := has_texts df;
     has_label := true;
     rows := map (fun r => {| col_A := col_A r; col_B := col_B r;
                              col_C := col_C r; col_label := Some value |})
                 (rows df) |}.

(** [if "label" not in df: df["label"] = "B"] *)
Definition default_label (df : DataFrame) : DataFrame :=
  if negb (has_label df) then set_label "B" df else df.

Definition from_dataframe (df : DataFrame) : result TripletTextDataset :=
  text_a_list <- text_column df col_A ;;
  text_b_list <- text_column df col_B ;;
  text_c_list <- text_column df col_C ;;
  let df := default_label df in
  label_list <- label_column df ;;
  __init__ text_a_list text_b_list text_c_list (Some label_list).

(** [df_cp = df.copy()] followed by three column assignments read from
    [df] and a constant label: every row is rebuilt from the row of [df]
    at the same position. *)
Definition permuted_copy (df : DataFrame) (a b c : Row -> string)
    (label : string) : result (list Row) :=
  if has_texts df
  then Ok (map (fun r => {| col_A := a r; col_B := b r; col_C := c r;
                            col_label := Some label |}) (rows df))
  else Raise KeyError.

(** The rows of [df] inside [pd.concat]: the other frames have a label
    column, so a frame without one gets missing labels. *)
Definition rows_in_concat (df : DataFrame) : list Row :=
  if has_label df then rows df
  else map (fun r => {| col_A := col_A r; col_B := col_B r;
                        col_C := col_C r; col_label := None |}) (rows df).

Definition row_eqb (r1 r2 : Row) : bool :=
  String.eqb (col_A r1) (col_A r2) && String.eqb (col_B r1) (col_B r2)
  && String.eqb (col_C r1) (col_C r2)
  && match col_label r1, col_label r2 with
     | Some l1, Some l2 => String.eqb l1 l2
     | None, None => true
     | _, _ => false
     end.

(** [df.drop_duplicates()]: of equal rows the first one stays. *)
Fixpoint drop_duplicates (l : list Row) : list Row :=
  match l with
  | [] => []
  | r :: l' => r :: filter (fun r' => negb (row_eqb r r')) (drop_duplicates l')
  end.

(** A record of the input: the ["label"] key may be absent. *)
Record record : Type := {
  rec_A : string;
  rec_B : string;
  rec_C : string;
  rec_label : option string
}.

Definition has_label_key (r : record) : bool :=
  match rec_label r with Some _ => true | None => false end.

(** [pd.DataFrame(data)]: the columns are the keys that occur; no record,
    no column. *)
Definition DataFrame_of_records (data : list record) : DataFrame :=
  {| has_texts := match data with [] => false | _ => true end;
     has_label := existsb has_label_key data;
     rows := map (fun r => {| col_A := rec_A r; col_B := rec_B r;
                              col_C := rec_C r; col_label := rec_label r |}) data |}.

Section Augment.
(** [df.sample(frac=1)] returns the rows in a random order: [sample] is
    the order drawn. *)
Variable sample : list Row -> list Row.

Definition augment (df : DataFrame) : result DataFrame :=
  df_cp1 <- permuted_copy df col_A col_C col_B "C" ;;
  df_cp2 <- permuted_copy df col_B col_A col_C "B" ;;
  df_cp3 <- permuted_copy df col_B col_C col_A "C" ;;
  df_cp4 <- permuted_copy df col_C col_A col_C "C" ;;
  df_cp5 <- permuted_copy df col_C col_C col_A "B" ;;
  let df := rows_in_concat df ++ df_cp1 ++ df_cp2 ++ df_cp3 ++ df_cp4 ++ df_cp5 in
  let df := drop_duplicates df in
  let df := sample df in
  Ok {| has_texts := true; has_label := true; rows := df |}.

Definition from_dict_list (data : list record) (use_augment : bool)
  : result TripletTextDataset :=
  let df := DataFrame_of_records data in
  let df := default_label df in
  df <- (if use_augment then augment df else Ok df) ;;
  from_dataframe df.

(** The file is given by its lines, and [json_loads] parses one. *)
Variable json_loads : string -> result record.

Definition from_jsons (json_lines_file : list string) (use_augment : bool)
  : result TripletTextDataset :=
  data <- map_result json_loads json_lines_file ;;
  from_dict_list data use_augment.
End Augment.

(** Every index of the dataset is read with the numeric label 0. *)
Definition all_labels_zero (self : TripletTextDataset) : Prop :=
  forall index : Z,
    - __len__ self <= index < __len__ self ->
    exists text_a text_b text_c,
      __getitem__ self index = Ok (text_a, text_b, text_c, 0).

Definition no_label_key (r : record) : Prop := rec_label r = None.

(** *** Tensors of the collator

    A [torch.LongTensor] is its shape and its entries in row-major order. *)

Record Tensor : Type := {
  shape : list nat;
  data : list Z
}.

(** The vector that holds the integers of a list. *)
Definition tensor_of_list (l : list Z) : Tensor :=
  {| shape := [length l]; data := l |}.

(** An entry of a [torch.LongTensor] is a signed integer of 64 bits. *)
Definition is_int64 (z : Z) : bool :=
  (-9223372036854775808 <=? z) && (z <=? 9223372036854775807).

(** [torch.LongTensor(l)] for a list of integers: an integer that does not
    fit in 64 bits raises ("Overflow when unpacking long"). *)
Definition LongTensor (l : list Z) : result Tensor :=
  if forallb is_int64 l then Ok (tensor_of_list l) else Raise RuntimeError.

Definition shape_eqb (s1 s2 : list nat) : bool :=
  if list_eq_dec Nat.eq_dec s1 s2 then true else false.

(** [torch.stack(tensors, 0)]: the tensors must have one shape, and there
    must be one at least. *)
Definition stack (tensors : list Tensor) : result Tensor :=
  match tensors with
  | [] => Raise RuntimeError
  | t :: _ =>
      if forallb (fun t' => shape_eqb (shape t') (shape t)) tensors
      then Ok {| shape := length tensors :: shape t;
                 data := concat (map data tensors) |}
      else Raise RuntimeError
  end.

Definition tensor_triple : Type := (Tensor * Tensor * Tensor)%type.

(** [default_collate] on a list of triples of tensors: the triples are
    transposed and each component is stacked. *)
Definition default_collate_triple (batch : list tensor_triple) : result tensor_triple :=
  t0 <- stack (map (fun t : tensor_triple => fst (fst t)) batch) ;;
  t1 <- stack (map (fun t : tensor_triple => snd (fst t)) batch) ;;
  t2 <- stack (map (fun t : tensor_triple => snd t) batch) ;;
  Ok (t0, t1, t2).

Definition example_tensors : Type :=
  (tensor_triple * tensor_triple * tensor_triple * Tensor)%type.

(** [default_collate] on the list [get_collator] builds; [batch[0]] is
    read first. *)
Definition default_collate (batch : list example_tensors)
  : result (tensor_triple * tensor_triple * tensor_triple * Tensor) :=
  match batch with
  | [] => Raise IndexError
  | _ =>
      a <- default_collate_triple (map (fun e : example_tensors => fst (fst (fst e))) batch) ;;
      b <- default_collate_triple (map (fun e : example_tensors => snd (fst (fst e))) batch) ;;
      c <- default_collate_triple (map (fun e : example_tensors => snd (fst e)) batch) ;;
      label <- stack (map (fun e : example_tensors => snd e) batch) ;;
      Ok (a, b, c, label)
  end.

(** *** [InputFeatures], [InputExample] and [get_collator] *)

Record InputFeatures : Type := {
  input_ids : list Z;
  input_mask : list Z;
  segment_ids : list Z
}.

(** The call [InputFeatures] with the unpacked tuple: the components of the
    tuple, in its order, go to the parameters
    [input_ids, input_mask, segment_ids], in theirs. *)
Definition InputFeatures_of_tuple (f : feature) : InputFeatures :=
  let '(x0, x1, x2) := f in
  {| input_ids := x0; input_mask := x1; segment_ids := x2 |}.

(** [.to(device)] moves a tensor and leaves its shape and entries. *)
Definition to_tensor (self : InputFeatures) : result tensor_triple :=
  t0 <- LongTensor (input_ids self) ;;
  t1 <- LongTensor (segment_ids self) ;;
  t2 <- LongTensor (input_mask self) ;;
  Ok (t0, t1, t2).

Section Collator.
Context `{Tokenizer}.

Definition to_two_pair_feature (text_a text_b text_c : string)
    (max_seq_length : Z) : result (InputFeatures * InputFeatures * InputFeatures) :=
  a <- _text_pair_to_feature text_a None max_seq_length ;;
  b <- _text_pair_to_feature text_b None max_seq_length ;;
  c <- _text_pair_to_feature text_c None max_seq_length ;;
  Ok (InputFeatures_of_tuple a, InputFeatures_of_tuple b, InputFeatures_of_tuple c).

(** One turn of the [for] loop of [three_pair_collate_fn]. *)
Definition example_to_tensors (max_len : Z)
    (example : string * string * string * Z) : result example_tensors :=
  let '(text_a, text_b, text_c, label) := example in
  '(a_feature, b_feature, c_feature) <-
      to_two_pair_feature text_a text_b text_c max_len ;;
  a_tensor <- to_tensor a_feature ;;
  b_tensor <- to_tensor b_feature ;;
  c_tensor <- to_tensor c_feature ;;
  label_tensor <- LongTensor [label] ;;
  Ok (a_tensor, b_tensor, c_tensor, label_tensor).

Definition three_pair_collate_fn (max_len : Z)
    (batch : list (string * string * string * Z))
  : result (tensor_triple * tensor_triple * tensor_triple * Tensor) :=
  example_tensors <- map_result (example_to_tensors max_len) batch ;;
  default_collate example_tensors.
End Collator.


(** *** Inputs to run the functions on *)

Definition record_abc : record :=
  {| rec_A := "a"; rec_B := "b"; rec_C := "c"; rec_label := None |}.

(** A reader of lines that takes the line for the first text. *)
Definition line_as_text (line : string) : result record :=
  Ok {| rec_A := line; rec_B := "b"; rec_C := "c"; rec_label := None |}.

End Data.

(** ** src/models/bert_esim.py

    The model computes with floating-point tensors.  What is embedded here
    is the part of it that is exact: the shape of every tensor, with the
    checks PyTorch makes on shapes, and the dispatch on [mode]. *)

Module BertEsim.

Local Open Scope nat_scope.

(** [torch.Size] *)
Definition shape : Type := list nat.

Definition shape_eqb (s1 s2 : shape) : bool :=
  if list_eq_dec Nat.eq_dec s1 s2 then true else false.

(** *** Shapes under the PyTorch operations the model calls *)

(** Broadcasting aligns the shapes at their last dimension; two sizes go
    together when they are equal or one of them is 1. *)
Fixpoint broadcast_rev (r1 r2 : list nat) : result (list nat) :=
  match r1, r2 with
  | [], r => Ok r
  | r, [] => Ok r
  | d1 :: r1', d2 :: r2' =>
      rest <- broadcast_rev r1' r2' ;;
      if d1 =? d2 then Ok (d1 :: rest)
      else if d1 =? 1 then Ok (d2 :: rest)
      else if d2 =? 1 then Ok (d1 :: rest)
      else Raise RuntimeError
  end.

(** The shape of [x - y], [x * y] and [x / y]. *)
Definition broadcast (s1 s2 : shape) : result shape :=
  r <- broadcast_rev (rev s1) (rev s2) ;;
  Ok (rev r).

(** A dimension as PyTorch reads it: [-1] is the last one. *)
Definition norm_dim (rank : nat) (dim : Z) : result nat :=
  let d := if (dim <? 0)%Z then (dim + Z.of_nat rank)%Z else dim in
  if ((0 <=? d) && (d <? Z.of_nat rank))%Z then Ok (Z.to_nat d)
  else Raise IndexError.

Definition except_dim (d : nat) (s : shape) : shape :=
  firstn d s ++ skipn (S d) s.

Definition size_at (d : nat) (s : shape) : nat := nth d s 0.

(** [torch.cat(tensors, dim)]: the shapes agree outside [dim], and the
    sizes along [dim] add up. *)
Definition cat (shapes : list shape) (dim : Z) : result shape :=
  match shapes with
  | [] => Raise RuntimeError
  | s0 :: _ =>
      d <- norm_dim (length s0) dim ;;
      if forallb (fun s => (length s =? length s0)
                           && shape_eqb (except_dim d s) (except_dim d s0)) shapes
      then Ok (firstn d s0 ++ [list_sum (map (size_at d) shapes)] ++ skipn (S d) s0)
      else Raise RuntimeError
  end.

(** [torch.sum(x, dim, keepdim)] *)
Definition sum_dim (s : shape) (dim : Z) (keepdim : bool) : result shape :=
  d <- norm_dim (length s) dim ;;
  Ok (firstn d s ++ (if keepdim then [1] else []) ++ skipn (S d) s).

(** [x.max(dim)]: a dimension of size 0 has no maximum. *)
Definition max_dim (s : shape) (dim : Z) : result shape :=
  d <- norm_dim (length s) dim ;;
  if size_at d s =? 0 then Raise RuntimeError
  else Ok (except_dim d s).

(** [x.unsqueeze(d)] *)
Definition unsqueeze (s : shape) (d : nat) : result shape :=
  if d <=? length s then Ok (firstn d s ++ [1] ++ skipn d s)
  else Raise IndexError.

(** [x.transpose(2, 1)] *)
Definition transpose_2_1 (s : shape) : result shape :=
  match s with
  | d0 :: d1 :: d2 :: rest => Ok (d0 :: d2 :: d1 :: rest)
  | _ => Raise IndexError
  end.

(** [softmax(x, dim=1)] *)
Definition softmax_dim1 (s : shape) : result shape :=
  _ <- norm_dim (length s) 1 ;;
  Ok s.

Definition numel (s : shape) : nat := fold_right Nat.mul 1 s.

(** [x.view(-1, 2)]: the entries must come in pairs; no entry gives no
    row. *)
Definition view_m1_2 (s : shape) : result shape :=
  if numel s mod 2 =? 0 then Ok [numel s / 2; 2]
  else Raise RuntimeError.

(** [labels.view(-1)], on a tensor of integers: the entries in one row. *)
Definition view_m1 (t : Data.Tensor) : Data.Tensor :=
  {| Data.shape := [numel (Data.shape t)]; Data.data := Data.data t |}.

(** A class the loss accepts among [classes] classes: the index of a
    class, or the value the loss skips, [ignore_index], which is -100 when
    the loss is built without arguments as here. *)
Definition valid_class (classes : nat) (t : Z) : bool :=
  ((0 <=? t)%Z && (t <? Z.of_nat classes)%Z) || (t =? -100)%Z.

(** [CrossEntropyLoss()(input, target)] on a matrix of scores and a vector
    of classes: a scalar.  The loss first compares the number of rows of
    the two ([ValueError] when they differ) and then reads the classes; a
    class that is not valid is out of bounds ([IndexError], as the loss
    raises it on the CPU). *)
Definition cross_entropy (input : shape) (target : Data.Tensor) : result shape :=
  match input, Data.shape target with
  | [n; classes], [n'] =>
      if negb (n =? n') then Raise ValueError
      else if forallb (valid_class classes) (Data.data target) then Ok []
      else Raise IndexError
  | _, _ => Raise RuntimeError
  end.

(** *** The layers *)

Inductive layer : Type :=
| Dropout
| Linear (in_features out_features : nat)
| Tanh
| ReLU.

(** [nn.Linear] acts on the last dimension, which must be [in_features];
    the other layers keep the shape. *)
Definition layer_forward (l : layer) (s : shape) : result shape :=
  match l with
  | Linear in_features out_features =>
      match rev s with
      | d :: front =>
          if d =? in_features then Ok (rev front ++ [out_features])
          else Raise RuntimeError
      | [] => Raise RuntimeError
      end
  | Dropout | Tanh | ReLU => Ok s
  end.

(** [nn.Sequential] *)
Fixpoint Sequential (layers : list layer) (s : shape) : result shape :=
  match layers with
  | [] => Ok s
  | l :: layers' =>
      s' <- layer_forward l s ;;
      Sequential layers' s'
  end.

(** The arguments [Seq2SeqEncoder] is built with: the input size, the
    hidden size and [bidirectional]; the class is [esim/layers.py]. *)
Record Seq2SeqEncoder : Type := {
  input_size : nat;
  rnn_hidden_size : nat;
  bidirectional : bool
}.

(** Modelled from the spec: [Seq2SeqEncoder] of [esim/layers.py], the
    "length-aware bidirectional recurrent encoder" that produces
    "per-token representations".  It takes a batch of sequences of vectors
    of the input size and one length per sequence, and gives, per token,
    the hidden state of each direction of the recurrent network. *)
Definition Seq2SeqEncoder_forward (enc : Seq2SeqEncoder)
    (sequences_batch sequences_lengths : shape) : result shape :=
  match sequences_batch, sequences_lengths with
  | [batch; seq; width], [batch'] =>
      if (batch =? batch') && (width =? input_size enc)
      then Ok [batch; seq;
               (if bidirectional enc then 2 else 1) * rnn_hidden_size enc]
      else Raise RuntimeError
  | _, _ => Raise RuntimeError
  end.

(** Modelled from the spec: [SoftmaxAttention] of [esim/layers.py], the
    "soft alignment against the other side": every token of one side gets
    a weighted sum of the vectors of the other side. *)
Definition SoftmaxAttention_forward
    (premise_batch premise_mask hypothesis_batch hypothesis_mask : shape)
  : result (shape * shape) :=
  match premise_batch, premise_mask, hypothesis_batch, hypothesis_mask with
  | [b1; s1; w1], [b2; s2], [b3; s3; w3], [b4; s4] =>
      if (b1 =? b2) && (b1 =? b3) && (b1 =? b4)
         && (s1 =? s2) && (s3 =? s4) && (w1 =? w3)
      then Ok ([b1; s1; w3], [b1; s3; w1])
      else Raise RuntimeError
  | _, _, _, _ => Raise RuntimeError
  end.

(** Modelled from the spec: [replace_masked] of [esim/utils.py], "replace
    padded positions with a large negative sentinel": the tensor keeps its
    shape, and the mask has one entry per token. *)
Definition replace_masked (tensor mask : shape) : result shape :=
  match tensor, mask with
  | [b; s; _], [b'; s'] =>
      if (b =? b') && (s =? s') then Ok tensor else Raise RuntimeError
  | _, _ => Raise RuntimeError
  end.

(** *** [BertForSimMatchModel] *)

Record BertConfig : Type := {
  hidden_size : nat
}.

Record BertForSimMatchModel : Type := {
  seq_relationship : layer;
  _embedding : nat;  (** the width of [bert.embeddings.word_embeddings] *)
  _encoding : Seq2SeqEncoder;
  _projection : list layer;
  _composition : Seq2SeqEncoder;
  _classification : list layer
}.

Definition __init__ (config : BertConfig) : BertForSimMatchModel :=
  {| seq_relationship := Linear (hidden_size config) 2;
     _embedding := hidden_size config;
     _encoding := {| input_size := hidden_size config;
                     rnn_hidden_size := hidden_size config;
                     bidirectional := true |};
     _projection := [Linear (4 * 2 * hidden_size config) (hidden_size config);
                     ReLU];
     _composition := {| input_size := hidden_size config;
                        rnn_hidden_size := hidden_size config;
                        bidirectional := true |};
     _classification := [Dropout;
                         Linear (4 * 2 * hidden_size config) (hidden_size config);
                         Tanh;
                         Dropout;
                         Linear (hidden_size config) 2] |}.

(** [self._embedding(ids)]: one vector per id. *)
Definition embedding_forward (width : nat) (ids : shape) : shape := ids ++ [width].

Section Forward.
Variable self : BertForSimMatchModel.

(** The masked average of one side: lines 114 to 117. *)
Definition masked_average (v mask : shape) : result shape :=
  m <- unsqueeze mask 1 ;;
  m <- transpose_2_1 m ;;
  weighted <- broadcast v m ;;
  total <- sum_dim weighted 1 false ;;
  count <- sum_dim mask 1 true ;;
  broadcast total count.

(** The masked maximum of one side: lines 119 and 120. *)
Definition masked_max (v mask : shape) : result shape :=
  replaced <- replace_masked v mask ;;
  max_dim replaced 1.

(** One side of the enhancement: lines 93 to 103. *)
Definition enhance (output attended : shape) : result shape :=
  difference <- broadcast output attended ;;
  product <- broadcast output attended ;;
  cat [output; attended; difference; product] (-1).

Definition siamese (a_output b_output a_mask b_mask : shape) : result shape :=
  a_length <- sum_dim a_mask (-1) false ;;
  b_length <- sum_dim b_mask (-1) false ;;
  a_output <- Seq2SeqEncoder_forward (_encoding self) a_output a_length ;;
  b_output <- Seq2SeqEncoder_forward (_encoding self) b_output b_length ;;
  '(attended_a, attended_b) <-
      SoftmaxAttention_forward a_output a_mask b_output b_mask ;;
  enhanced_a <- enhance a_output attended_a ;;
  enhanced_b <- enhance b_output attended_b ;;
  projected_a <- Sequential (_projection self) enhanced_a ;;
  projected_b <- Sequential (_projection self) enhanced_b ;;
  v_ai <- Seq2SeqEncoder_forward (_composition self) projected_a a_length ;;
  v_bj <- Seq2SeqEncoder_forward (_composition self) projected_b b_length ;;
  v_a_avg <- masked_average v_ai a_mask ;;
  v_b_avg <- masked_average v_bj b_mask ;;
  v_a_max <- masked_max v_ai a_mask ;;
  v_b_max <- masked_max v_bj b_mask ;;
  cat [v_a_avg; v_a_max; v_b_avg; v_b_max] 1.

(** What [forward] returns: a tensor, a tuple of tensors, or [None]. *)
Inductive value : Type :=
| VTensor (s : shape)
| VTuple (l : list shape)
| VNone.

(** An input of [forward]: a tuple of three tensors. *)
Definition input : Type := (shape * shape * shape)%type.

(** Lines 46 to 66: the output of the classifier, before the dispatch. *)
Definition classifier_output (a b c : input) : result shape :=
  let a_mask := snd (fst a) in
  let b_mask := snd (fst b) in
  let c_mask := snd (fst c) in
  let a_output := embedding_forward (_embedding self) (fst (fst a)) in
  let b_output := embedding_forward (_embedding self) (fst (fst b)) in
  let c_output := embedding_forward (_embedding self) (fst (fst c)) in
  v_ab <- siamese a_output b_output a_mask b_mask ;;
  v_ac <- siamese a_output c_output a_mask c_mask ;;
  subtraction <- broadcast v_ab v_ac ;;
  Sequential (_classification self) subtraction.

(** [loss_fct(output.view(-1, 2), labels.view(-1))]; [labels] may be
    [None], which has no [view]. *)
Definition loss_of (output : shape) (labels : option Data.Tensor) : result shape :=
  scores <- view_m1_2 output ;;
  match labels with
  | None => Raise AttributeError
  | Some labels => cross_entropy scores (view_m1 labels)
  end.

Definition forward (a b c : input) (labels : option Data.Tensor) (mode : string)
  : result value :=
  output <- classifier_output a b c ;;
  if String.eqb mode "prob" then
    prob <- softmax_dim1 output ;;
    Ok (VTensor prob)
  else if String.eqb mode "logits" then
    Ok (VTensor output)
  else if String.eqb mode "loss" then
    loss <- loss_of output labels ;;
    Ok (VTensor loss)
  else if String.eqb mode "evaluate" then
    prob <- softmax_dim1 output ;;
    loss <- loss_of output labels ;;
    Ok (VTuple [output; prob; loss])
  else Ok VNone.
End Forward.

(** The first [nn.Linear] of a [nn.Sequential], as
    [(in_features, out_features)]. *)
Fixpoint first_linear (layers : list layer) : option (nat * nat) :=
  match layers with
  | [] => None
  | Linear in_features out_features :: _ => Some (in_features, out_features)
  | _ :: layers' => first_linear layers'
  end.

(** A batch as the collator makes it: three tensors of [batch] rows and
    [seq] columns. *)
Definition batch_input (batch seq : nat) : input :=
  ([batch; seq], [batch; seq], [batch; seq]).

End BertEsim.

(** ** The values of [forward]

    The tensors of the model hold floating-point numbers, and the dropout
    layers draw random masks.  [Torch] is what the lines 57 to 81 of
    [forward] ask of the tensors, whatever they are made of; the random
    mask a dropout layer draws in training mode is an argument, [draw], so
    that a call of [forward] is a function of its input, of the mode of the
    module ([self.training]) and of the two masks its two dropout layers
    draw. *)

Module BertEsimValues.

Class Torch : Type := {
  tensor : Type;
  draw : Type;
  (** Modelled from the spec: the lines 46 to 58 for one pair, the
      masks, the embeddings and [self.siamese], are a function of the pair.
      The embedding is a table, the dropout layer of [siamese] is commented
      out (lines 108 and 109), and the encoders and the attention of
      [esim/layers.py], which is not in [src/], are pure functions of their
      input. *)
  siamese_of_pair : Data.tensor_triple -> Data.tensor_triple -> result tensor;
  (** [v_ab - v_ac] *)
  subtract : tensor -> tensor -> result tensor;
  (** [nn.Dropout] in training mode, with the mask it draws. *)
  dropout_with : draw -> tensor -> tensor;
  (** The two [nn.Linear] and the [nn.Tanh] of [self._classification]. *)
  linear1 : tensor -> result tensor;
  tanh : tensor -> tensor;
  linear2 : tensor -> result tensor;
  (** [torch.nn.functional.softmax(x, dim=1)] *)
  softmax : tensor -> result tensor;
  (** [x.view(-1, 2)] *)
  view_scores : tensor -> result tensor;
  (** [CrossEntropyLoss()(scores, labels.view(-1))] *)
  cross_entropy : tensor -> Data.Tensor -> result tensor
}.

Section ForwardValues.
Context `{Torch}.

(** [nn.Dropout]: the identity in evaluation mode. *)
Definition dropout (training : bool) (d : draw) (x : tensor) : tensor :=
  if training then dropout_with d x else x.

(** [self._classification]: dropout, linear, tanh, dropout, linear. *)
Definition _classification (training : bool) (d1 d2 : draw) (x : tensor)
  : result tensor :=
  let x := dropout training d1 x in
  x <- linear1 x ;;
  let x := tanh x in
  let x := dropout training d2 x in
  linear2 x.

(** What [forward] returns: a tensor, a tuple of tensors, or [None]. *)
Inductive value : Type :=
| VTensor (t : tensor)
| VTuple (l : list tensor)
| VNone.

Definition loss_of (output : tensor) (labels : option Data.Tensor) : result tensor :=
  scores <- view_scores output ;;
  match labels with
  | None => Raise AttributeError
  | Some labels => cross_entropy scores labels
  end.

Definition forward (training : bool) (d1 d2 : draw)
    (a b c : Data.tensor_triple) (labels : option Data.Tensor) (mode : string)
  : result value :=
  v_ab <- siamese_of_pair a b ;;
  v_ac <- siamese_of_pair a c ;;
  subtraction <- subtract v_ab v_ac ;;
  output <- _classification training d1 d2 subtraction ;;
  if String.eqb mode "prob" then
    prob <- softmax output ;;
    Ok (VTensor prob)
  else if String.eqb mode "logits" then
    Ok (VTensor output)
  else if String.eqb mode "loss" then
    loss <- loss_of output labels ;;
    Ok (VTensor loss)
  else if String.eqb mode "evaluate" then
    prob <- softmax output ;;
    loss <- loss_of output labels ;;
    Ok (VTuple [output; prob; loss])
  else Ok VNone.

(** The row-wise softmax of what a call returned, when it returned a
    tensor. *)
Definition softmax_of (r : result value) : result value :=
  v <- r ;;
  match v with
  | VTensor output => prob <- softmax output ;; Ok (VTensor prob)
  | other => Ok other
  end.
End ForwardValues.

End BertEsimValues.

(** ** The operations on matrices of real numbers

    The operations of [Torch] on matrices, a matrix being the list of its
    rows, with real numbers for the floating-point ones: what the layers
    compute when nothing is rounded and nothing overflows. *)

Module RealTorch.

Local Open Scope R_scope.

Definition matrix : Type := list (list R).

Fixpoint zip_with {A B C : Type} (f : A -> B -> C) (l1 : list A) (l2 : list B)
  : list C :=
  match l1, l2 with
  | x :: l1', y :: l2' => f x y :: zip_with f l1' l2'
  | _, _ => []
  end.

Definition total (l : list R) : R := fold_right Rplus 0 l.

Definition dot (u v : list R) : R := total (zip_with Rmult u v).

Definition same_lengths (x y : matrix) : bool :=
  (length x =? length y)%nat
  && forallb (fun rows => (length (fst rows) =? length (snd rows))%nat) (combine x y).

(** [x - y] for two matrices of one shape. *)
Definition subtract (x y : matrix) : result matrix :=
  if same_lengths x y then Ok (zip_with (zip_with Rminus) x y)
  else Raise RuntimeError.

(** [nn.Linear] with the weight [W] (one row per output) and the bias
    [bias]: [x W^T + bias], on rows as long as the rows of [W]. *)
Definition linear (in_features : nat) (W : matrix) (bias : list R) (x : matrix)
  : result matrix :=
  if forallb (fun row => (length row =? in_features)%nat) x
  then Ok (map (fun row => zip_with Rplus (map (dot row) W) bias) x)
  else Raise RuntimeError.

(** The mask a dropout layer draws: whether the entry of a row and a
    column is kept. *)
Definition mask : Type := nat -> nat -> bool.

Fixpoint mapi {A B : Type} (f : nat -> A -> B) (i : nat) (l : list A) : list B :=
  match l with
  | [] => []
  | x :: l' => f i x :: mapi f (S i) l'
  end.

(** [nn.Dropout(p)] in training mode: an entry is kept and divided by
    [1 - p], or set to zero. *)
Definition dropout_with (p : R) (d : mask) (x : matrix) : matrix :=
  mapi (fun i row => mapi (fun j v => if d i j then v / (1 - p) else 0) 0%nat row)
       0%nat x.

Definition softmax_row (row : list R) : list R :=
  map (fun v => exp v / total (map exp row)) row.

(** [softmax(x, dim=1)] *)
Definition softmax (x : matrix) : result matrix := Ok (map softmax_row x).

(** [x.view(-1, 2)]: the entries, row after row, two by two. *)
Fixpoint pairs (l : list R) : result matrix :=
  match l with
  | [] => Ok []
  | [_] => Raise RuntimeError
  | u :: v :: l' => rows <- pairs l' ;; Ok ([u; v] :: rows)
  end.

Definition view_scores (x : matrix) : result matrix := pairs (concat x).

(** The loss of a row for its class, [-log(softmax(row)[class])], and
    nothing for a row whose class is skipped. *)
Definition row_losses (scores : matrix) (classes : list Z) : list R :=
  concat (zip_with (fun row t => if (t =? -100)%Z then []
                                 else [- ln (nth (Z.to_nat t) (softmax_row row) 0)])
                   scores classes).

(** [CrossEntropyLoss()(scores, labels.view(-1))]: the mean of the losses
    of the rows that are not skipped, as a matrix of one entry. *)
Definition cross_entropy (scores : matrix) (labels : Data.Tensor) : result matrix :=
  let target := BertEsim.view_m1 labels in
  match Data.shape target with
  | [n] =>
      if negb (length scores =? n)%nat then Raise ValueError
      else if forallb (BertEsim.valid_class 2) (Data.data target)
      then let losses := row_losses scores (Data.data target) in
           Ok [[total losses / INR (length losses)]]
      else Raise IndexError
  | _ => Raise RuntimeError
  end.

(** The parameters of a model: the dropout probability, the siamese
    vector of a pair, and the weights and biases of the two linear layers
    of the classifier. *)
Record Model : Type := {
  hidden_dropout_prob : R;
  siamese_vector : Data.tensor_triple -> Data.tensor_triple -> result matrix;
  hidden_size : nat;
  weight1 : matrix;
  bias1 : list R;
  weight2 : matrix;
  bias2 : list R
}.

Definition torch (m : Model) : BertEsimValues.Torch := {|
  BertEsimValues.tensor := matrix;
  BertEsimValues.draw := mask;
  BertEsimValues.siamese_of_pair := siamese_vector m;
  BertEsimValues.subtract := subtract;
  BertEsimValues.dropout_with := dropout_with (hidden_dropout_prob m);
  BertEsimValues.linear1 := linear (4 * 2 * hidden_size m) (weight1 m) (bias1 m);
  BertEsimValues.tanh := map (map Rtrigo_def.tanh);
  BertEsimValues.linear2 := linear (hidden_size m) (weight2 m) (bias2 m);
  BertEsimValues.softmax := softmax;
  BertEsimValues.view_scores := view_scores;
  BertEsimValues.cross_entropy := cross_entropy
|}.

(** A model of one hidden unit: its hidden unit is [tanh(1)] whatever it
    is given, the first logit is the hidden unit and the second is 0. *)
Definition one_unit_model : Model := {|
  hidden_dropout_prob := 1 / 10;
  siamese_vector := fun _ _ => Ok [[0; 0; 0; 0; 0; 0; 0; 0]];
  hidden_size := 1;
  weight1 := [[0; 0; 0; 0; 0; 0; 0; 0]];
  bias1 := [1];
  weight2 := [[1]; [0]];
  bias2 := [0; 0]
|}.

(** A batch of one item of two tokens, and the two draws of a dropout
    layer on it: every entry kept, every entry dropped. *)
Definition one_item : Data.tensor_triple :=
  ({| Data.shape := [1; 2]%nat; Data.data := [5; 5]%Z |},
   {| Data.shape := [1; 2]%nat; Data.data := [1; 1]%Z |},
   {| Data.shape := [1; 2]%nat; Data.data := [0; 0]%Z |}).

Definition keep_all : mask := fun _ _ => true.
Definition drop_all : mask := fun _ _ => false.

End RealTorch.

(** ** Closed forms

    What the functions above compute, written without their loops and
    assertions; the statements below compare the code with them. *)

(** The last [n] elements of a list: all of it when [n] is its length or
    more. *)
Definition last_n {A : Type} (l : list A) (n : Z) : list A :=
  skipn (Z.to_nat (len l - n)) l.

(** The tokens each side keeps under a budget that is not negative, for
    sides of [la] and [lb] tokens: a side is cut down to its half of the
    budget (the larger half for the first side), or to what the other side
    leaves of the budget when that is more. *)
Definition kept_a (la lb budget : Z) : Z :=
  Z.min la (Z.max ((budget + 1) / 2) (budget - lb)).

Definition kept_b (la lb budget : Z) : Z :=
  Z.min lb (Z.max (budget / 2) (budget - la)).

(** The list an optional second sequence stands for. *)
Definition second_tokens (tokens_b : option (list Data.token)) : list Data.token :=
  match tokens_b with
  | Some tokens_b => tokens_b
  | None => []
  end.

(** The feature of a first sequence and a second one (none when the list
    is empty), laid out in [max_seq_length] positions. *)
Definition feature_layout `{Data.Tokenizer} (tokens_a tokens_b : list Data.token)
    (max_seq_length : Z) : Data.feature :=
  let first := len tokens_a + 2 in
  let second := match tokens_b with [] => 0 | _ => len tokens_b + 1 end in
  let tokens :=
    [Data.CLS] ++ tokens_a ++ [Data.SEP]
    ++ match tokens_b with [] => [] | _ => tokens_b ++ [Data.SEP] end in
  let padding := max_seq_length - (first + second) in
  (Data.convert_tokens_to_ids tokens ++ py_repeat 0 padding,
   py_repeat 0 first ++ py_repeat 1 second ++ py_repeat 0 padding,
   py_repeat 1 (first + second) ++ py_repeat 0 padding).

(** The feature of a single text. *)
Definition single_text_feature `{Data.Tokenizer} (text : string)
    (max_seq_length : Z) : Data.feature :=
  feature_layout (last_n (Data.tokenize text) (max_seq_length - 2)) [] max_seq_length.

(** The five rows [augment] derives from a row. *)
Definition derived_rows (r : Data.Row) : list Data.Row :=
  let row a b c label :=
    {| Data.col_A := a; Data.col_B := b; Data.col_C := c;
       Data.col_label := Some label |} in
  [ row (Data.col_A r) (Data.col_C r) (Data.col_B r) "C"%string;
    row (Data.col_B r) (Data.col_A r) (Data.col_C r) "B"%string;
    row (Data.col_B r) (Data.col_C r) (Data.col_A r) "C"%string;
    row (Data.col_C r) (Data.col_A r) (Data.col_C r) "C"%string;
    row (Data.col_C r) (Data.col_C r) (Data.col_A r) "B"%string ].

(** The tensor of a list of rows of [width] entries each. *)
Definition stacked (rows : list (list Z)) (width : nat) : Data.Tensor :=
  {| Data.shape := [length rows; width]; Data.data := concat rows |}.

(** The three tensors of a batch of features, in the order the collator
    returns them: the ids, the mask, the segment ids. *)
Definition stacked_features (features : list Data.feature) (width : nat)
  : Data.tensor_triple :=
  (stacked (map (fun f : Data.feature => fst (fst f)) features) width,
   stacked (map (fun f : Data.feature => snd f) features) width,
   stacked (map (fun f : Data.feature => snd (fst f)) features) width).

(** The tensors of a feature, in the order the collator returns them: the
    ids, the mask, the segment ids. *)
Definition feature_tensors (f : Data.feature) : Data.tensor_triple :=
  (Data.tensor_of_list (fst (fst f)),
   Data.tensor_of_list (snd f),
   Data.tensor_of_list (snd (fst f))).

(** Every id of the vocabulary fits in 64 bits. *)
Definition int64_ids `{Data.Tokenizer} : Prop :=
  forall t : Data.token, Data.is_int64 (Data.convert_token_to_id t) = true.

(** The texts and the label of an item of a batch. *)
Definition item : Type := (string * string * string * Z)%type.
Definition item_text_a (x : item) : string := fst (fst (fst x)).
Definition item_text_b (x : item) : string := snd (fst (fst x)).
Definition item_text_c (x : item) : string := snd (fst x).
Definition item_label (x : item) : Z := snd x.

(** Every label of a batch fits in 64 bits; every label is a class of
    the two-way classifier. *)
Definition int64_labels (batch : list (string * string * string * Z)) : Prop :=
  Forall (fun x => Data.is_int64 (item_label x) = true) batch.

Definition binary_labels (batch : list (string * string * string * Z)) : Prop :=
  Forall (fun x => item_label x = 0 \/ item_label x = 1) batch.

(** Some item of a batch has a text (the one [text] reads) of at least
    [max_len - 2] tokens: its feature has no padding, and the longest
    sequence of the batch takes the [max_len] positions. *)
Definition fills_max_len `{Data.Tokenizer} (max_len : Z)
    (text : string * string * string * Z -> string)
    (batch : list (string * string * string * Z)) : Prop :=
  Exists (fun x => max_len - 2 <= len (Data.tokenize (text x))) batch.

(** The shapes of a triple of tensors of the collator, as an input of the
    model. *)
Definition input_of_triple (t : Data.tensor_triple) : BertEsim.input :=
  (Data.shape (fst (fst t)), Data.shape (snd (fst t)), Data.shape (snd t)).

(** A list of records in which the second one has no label while the
    first has one, and a frame of one row labelled ["C"]. *)
Definition records_partly_labelled : list Data.record :=
  [ {| Data.rec_A := "a1"; Data.rec_B := "b1"; Data.rec_C := "c1";
       Data.rec_label := Some "B"%string |};
    {| Data.rec_A := "a2"; Data.rec_B := "b2"; Data.rec_C := "c2";
       Data.rec_label := None |} ].

Definition frame_labelled_C : Data.DataFrame :=
  {| Data.has_texts := true; Data.has_label := true;
     Data.rows := [ {| Data.col_A := "a"; Data.col_B := "b"; Data.col_C := "c";
                       Data.col_label := Some "C"%string |} ] |}.

(** * Properties *)

Import Data.

(** ** Lengths of Python lists *)

Lemma len_nil {A : Type} : len (@nil A) = 0.
Proof. reflexivity. Qed.

Lemma len_cons {A : Type} (x : A) (l : list A) : len (x :: l) = len l + 1.
Proof. unfold len. simpl length. lia. Qed.

Lemma len_app {A : Type} (l1 l2 : list A) : len (l1 ++ l2) = len l1 + len l2.
Proof. unfold len. rewrite length_app. lia. Qed.

Lemma len_map {A B : Type} (f : A -> B) (l : list A) : len (map f l) = len l.
Proof. unfold len. now rewrite length_map. Qed.

Lemma len_py_repeat {A : Type} (x : A) (n : Z) : len (py_repeat x n) = Z.max 0 n.
Proof. unfold len, py_repeat. rewrite repeat_length. lia. Qed.

Lemma len_nonneg {A : Type} (l : list A) : 0 <= len l.
Proof. unfold len. lia. Qed.

Lemma len_slice_from {A : Type} (l : list A) (start : Z) :
  0 <= start <= len l -> len (slice_from l start) = len l - start.
Proof.
  intros Hs. unfold slice_from.
  destruct (start <? 0) eqn:E; [apply Z.ltb_lt in E; lia|].
  unfold len in *. rewrite length_skipn. lia.
Qed.

Create Rewrite HintDb pylen.

#[local] Hint Rewrite @len_nil @len_cons @len_app @len_map @len_py_repeat : pylen.

Ltac pylen := autorewrite with pylen in *.

(** ** The paired truncation loop *)

(** With a budget that is not negative the loop returns within the fuel
    [_truncate_seq_pair] gives it, and it runs as the specification says. *)
Lemma truncate_loop_spec (fuel : nat) :
  forall (a b : list token) (budget : Z),
    0 <= budget ->
    (length a + length b < fuel)%nat ->
    exists st, truncate_loop fuel a b budget = Returned st
               /\ spec_truncation budget (a, b) st.
Proof.
  induction fuel as [|fuel IH]; intros a b budget Hb Hfuel; [lia|].
  cbn [truncate_loop].
  destruct (len a + len b <=? budget) eqn:Estop.
  - apply Z.leb_le in Estop. eexists; split; [reflexivity|].
    now apply spec_stop.
  - apply Z.leb_gt in Estop.
    destruct (len b <? len a) eqn:Elong.
    + apply Z.ltb_lt in Elong.
      destruct a as [|x a']; [pose proof (len_nonneg b); pylen; lia|].
      cbn [pop0].
      destruct (IH a' b budget Hb) as [st [Hrun Hspec]]; [simpl in Hfuel; lia|].
      exists st; split; [exact Hrun|].
      eapply spec_continue; [exact Estop| |exact Hspec].
      now apply remove_front_a.
    + apply Z.ltb_ge in Elong.
      destruct b as [|y b']; [pylen; lia|].
      cbn [pop0].
      destruct (IH a b' budget Hb) as [st [Hrun Hspec]]; [simpl in Hfuel; lia|].
      exists st; split; [exact Hrun|].
      eapply spec_continue; [exact Estop| |exact Hspec].
      now apply remove_front_b.
Qed.

(** The run the specification describes is unique, ends within the
    budget, and only ever drops tokens from the front. *)
Lemma spec_remove_one_functional (st st1 st2 : loop_state) :
  spec_remove_one st st1 -> spec_remove_one st st2 -> st1 = st2.
Proof.
  intros H1 H2. inversion H1; subst; inversion H2; subst; try reflexivity;
    pylen; lia.
Qed.

Lemma spec_truncation_functional (budget : Z) (st st1 st2 : loop_state) :
  spec_truncation budget st st1 -> spec_truncation budget st st2 -> st1 = st2.
Proof.
  intros H1. revert st2.
  induction H1 as [st Hstop|st st' st'' Hmore Hrm _ IH]; intros st2 H2.
  - inversion H2; subst; [reflexivity|lia].
  - inversion H2; subst; [lia|].
    assert (st' = st'0) by (eapply spec_remove_one_functional; eassumption).
    subst. now apply IH.
Qed.

Lemma spec_truncation_within_budget (budget : Z) (st st' : loop_state) :
  spec_truncation budget st st' -> total_length st' <= budget.
Proof. induction 1; assumption. Qed.

Lemma spec_truncation_suffix (budget : Z) (st st' : loop_state) :
  spec_truncation budget st st' ->
  exists i j, fst st' = skipn i (fst st) /\ snd st' = skipn j (snd st).
Proof.
  induction 1 as [st _|st st' st'' _ Hrm _ [i [j [Ha Hb]]]].
  - now exists 0%nat, 0%nat.
  - inversion Hrm; subst; simpl in *.
    + now exists (S i), j.
    + now exists i, (S j).
Qed.

(** The loop stops as soon as the budget is met: it drops no token more
    than it has to. *)
Lemma spec_truncation_total (budget : Z) (st st' : loop_state) :
  0 <= budget ->
  spec_truncation budget st st' ->
  total_length st' = Z.min (total_length st) budget.
Proof.
  intros Hb. induction 1 as [st Hstop|st st' st'' Hmore Hrm _ IH]; [lia|].
  rewrite IH.
  inversion Hrm; subst; unfold total_length in *; simpl fst in *; simpl snd in *;
    pylen; lia.
Qed.

(** With a negative budget the loop empties both lists and then pops from
    an empty one. *)
Lemma truncate_loop_negative_budget (fuel : nat) :
  forall (a b : list token) (budget : Z),
    budget < 0 ->
    (length a + length b < fuel)%nat ->
    truncate_loop fuel a b budget = Raised IndexError.
Proof.
  induction fuel as [|fuel IH]; intros a b budget Hb Hfuel; [lia|].
  cbn [truncate_loop].
  pose proof (len_nonneg a). pose proof (len_nonneg b).
  destruct (len a + len b <=? budget) eqn:Estop; [apply Z.leb_le in Estop; lia|].
  destruct (len b <? len a) eqn:Elong.
  - apply Z.ltb_lt in Elong.
    destruct a as [|x a']; [pylen; lia|].
    cbn [pop0]. apply IH; [assumption|simpl in Hfuel; lia].
  - destruct b as [|y b']; [reflexivity|].
    cbn [pop0]. apply IH; [assumption|simpl in Hfuel; lia].
Qed.

Lemma truncate_seq_pair_negative_budget (a b : list token) (budget : Z) :
  budget < 0 -> _truncate_seq_pair a b budget = Raise IndexError.
Proof.
  intros Hb. unfold _truncate_seq_pair.
  rewrite truncate_loop_negative_budget; [reflexivity|assumption|].
  unfold truncate_fuel. lia.
Qed.

Lemma truncate_seq_pair_spec (a b : list token) (budget : Z) :
  0 <= budget ->
  exists st, _truncate_seq_pair a b budget = Ok st
             /\ spec_truncation budget (a, b) st.
Proof.
  intros Hb. unfold _truncate_seq_pair.
  destruct (truncate_loop_spec (truncate_fuel a b) a b budget Hb) as [st [Hrun Hspec]];
    [unfold truncate_fuel; lia|].
  rewrite Hrun. now exists st.
Qed.

(** The fuel [_truncate_seq_pair] gives the loop never runs out: the
    loop returns or raises. *)
Lemma truncate_loop_fuel (a b : list token) (budget : Z) :
  truncate_loop (truncate_fuel a b) a b budget <> OutOfFuel.
Proof.
  destruct (Z.le_gt_cases 0 budget) as [Hb|Hb].
  - destruct (truncate_loop_spec (truncate_fuel a b) a b budget Hb)
      as [st [Hrun _]]; [unfold truncate_fuel; lia|].
    rewrite Hrun. discriminate.
  - rewrite truncate_loop_negative_budget;
      [discriminate|assumption|unfold truncate_fuel; lia].
Qed.

(** The feature builder calls the loop on the two token lists with the
    budget [max_seq_length - 3]. *)
Lemma truncated_tokens_pair `{Tokenizer} (text_a text_b : string) (max_seq_length : Z) :
  text_b <> EmptyString ->
  truncated_tokens text_a (Some text_b) max_seq_length =
  bind (_truncate_seq_pair (tokenize text_a) (tokenize text_b) (max_seq_length - 3))
       (fun st => Ok (fst st, Some (snd st))).
Proof.
  intros Hne. unfold truncated_tokens, truthy_text.
  destruct text_b; [contradiction|].
  destruct (_truncate_seq_pair _ _ _) as [[ta tb]|e]; reflexivity.
Qed.

(** C1, as amended: for every pair of token sequences and every
    [max_seq_length >= 3] (a budget [max_seq_length - 3] that is not
    negative), the paired truncation loop returns, and its run removes one
    token at a time from the front of the sequence that is currently
    longer, from [tokens_b] when the two are equally long, and stops
    exactly when [len(tokens_a) + len(tokens_b) <= max_seq_length - 3]. *)
Theorem C1_paired_truncation (tokens_a tokens_b : list token) (max_seq_length : Z) :
  3 <= max_seq_length ->
  exists st,
    _truncate_seq_pair tokens_a tokens_b (max_seq_length - 3) = Ok st
    /\ spec_truncation (max_seq_length - 3) (tokens_a, tokens_b) st
    /\ total_length st
       = Z.min (len tokens_a + len tokens_b) (max_seq_length - 3).
Proof.
  intros Hmax.
  assert (Hbudget : 0 <= max_seq_length - 3) by lia.
  destruct (truncate_seq_pair_spec tokens_a tokens_b (max_seq_length - 3) Hbudget)
    as [st [Hrun Hspec]].
  exists st. split; [exact Hrun|]. split; [exact Hspec|].
  exact (spec_truncation_total _ _ _ Hbudget Hspec).
Qed.

Lemma C1_paired_truncation_witness :
  3 <= 6 /\
  exists st,
    _truncate_seq_pair ["a"; "b"; "c"]%string ["x"; "y"; "z"]%string (6 - 3) = Ok st
    /\ spec_truncation (6 - 3) (["a"; "b"; "c"]%string, ["x"; "y"; "z"]%string) st
    /\ total_length st
       = Z.min (len ["a"; "b"; "c"]%string + len ["x"; "y"; "z"]%string) (6 - 3).
Proof.
  split; [lia|].
  apply (C1_paired_truncation ["a"; "b"; "c"]%string ["x"; "y"; "z"]%string 6).
  lia.
Defined.

(** On that input the tie goes to [tokens_b] first, then the longer
    [tokens_a] loses a token, then [tokens_b] again. *)
Lemma truncate_seq_pair_tie_break :
  _truncate_seq_pair ["a"; "b"; "c"]%string ["x"; "y"; "z"]%string (6 - 3)
  = Ok (["b"; "c"]%string, ["z"]%string)
  /\ _truncate_seq_pair ["a"; "b"]%string ["x"; "y"]%string 3
     = Ok (["a"; "b"]%string, ["y"]%string).
Proof. split; reflexivity. Qed.

(** C1, as stated, fails for a budget below zero: with
    [max_seq_length = 2] the budget is [-1], the loop pops both tokens and
    then pops from the empty [tokens_b], which raises [IndexError]. *)
Lemma C1_counterexample :
  _truncate_seq_pair ["x"]%string ["y"]%string (2 - 3) = Raise IndexError
  /\ ~ (exists st,
         _truncate_seq_pair ["x"]%string ["y"]%string (2 - 3) = Ok st
         /\ spec_truncation (2 - 3) (["x"]%string, ["y"]%string) st).
Proof.
  split; [reflexivity|].
  intros [st [Hrun _]]. vm_compute in Hrun. discriminate Hrun.
Qed.

(** ** The feature builder *)

Lemma py_sum_from (l : list Z) (acc : Z) : fold_left Z.add l acc = acc + py_sum l.
Proof.
  unfold py_sum. revert acc.
  induction l as [|x l IH]; intros acc; simpl; [lia|].
  rewrite IH, (IH x). lia.
Qed.

Lemma py_sum_app (l1 l2 : list Z) : py_sum (l1 ++ l2) = py_sum l1 + py_sum l2.
Proof.
  unfold py_sum at 1. rewrite fold_left_app.
  fold (py_sum l1). now rewrite py_sum_from.
Qed.

Lemma py_sum_repeat (x : Z) (n : nat) : py_sum (repeat x n) = x * Z.of_nat n.
Proof.
  induction n as [|n IH]; [simpl; unfold py_sum; simpl; lia|].
  change (repeat x (S n)) with ([x] ++ repeat x n).
  rewrite py_sum_app, IH. unfold py_sum. simpl. lia.
Qed.

Lemma py_sum_mask (n m : Z) :
  py_sum (py_repeat 1 n ++ py_repeat 0 m) = Z.max 0 n.
Proof.
  unfold py_repeat. rewrite py_sum_app, !py_sum_repeat. lia.
Qed.

Lemma second_segment_length_bound (tokens_b : list token) :
  0 <= second_segment_length (Some tokens_b) <= len tokens_b + 1.
Proof.
  unfold second_segment_length.
  destruct tokens_b as [|y b]; simpl truthy_tokens; cbv iota; pylen;
    [lia | pose proof (len_nonneg b); lia].
Qed.

(** When the tokens fit, the padding fills the feature up to
    [max_seq_length], the assertions pass, and the mask is a run of ones
    over the real tokens followed by zeros. *)
Lemma assemble_feature_fits `{Tokenizer} (tokens_a : list token)
    (tokens_b : option (list token)) (max_seq_length : Z) :
  let real := len tokens_a + 2 + second_segment_length tokens_b in
  real <= max_seq_length ->
  exists input_ids segment_ids,
    assemble_feature tokens_a tokens_b max_seq_length =
      Ok (input_ids, segment_ids,
          py_repeat 1 real ++ py_repeat 0 (max_seq_length - real))
    /\ len input_ids = max_seq_length
    /\ len segment_ids = max_seq_length.
Proof.
  intros real Hfit. subst real.
  unfold second_segment_length, assemble_feature in *.
  pose proof (len_nonneg tokens_a) as Ha.
  destruct (truthy_tokens tokens_b) as [b|]; cbv beta iota zeta;
    try pose proof (len_nonneg b) as Hb.
  all: repeat match goal with
       | |- context [py_assert (?x =? ?y)] =>
           replace (x =? y) with true
             by (symmetry; apply Z.eqb_eq; unfold convert_tokens_to_ids;
                 pylen; lia)
       end.
  all: cbn [py_assert bind].
  all: eexists; eexists; split;
    [ do 2 f_equal; f_equal;
      [ f_equal | f_equal; f_equal ];
      unfold convert_tokens_to_ids; pylen; lia
    | split; unfold convert_tokens_to_ids; pylen; lia ].
Qed.

(** A single text keeps its last [max_seq_length - 2] tokens. *)
Lemma truncated_tokens_single `{Tokenizer} (text_a : string) (text_b : option string)
    (max_seq_length : Z) :
  truthy_text text_b = None ->
  2 <= max_seq_length ->
  exists kept,
    truncated_tokens text_a text_b max_seq_length = Ok (kept, None)
    /\ len kept = Z.min (len (tokenize text_a)) (max_seq_length - 2).
Proof.
  intros Hb Hmax. unfold truncated_tokens. rewrite Hb.
  pose proof (len_nonneg (tokenize text_a)) as Hlen.
  destruct (max_seq_length - 2 <? len (tokenize text_a)) eqn:E.
  - apply Z.ltb_lt in E. eexists; split; [reflexivity|].
    rewrite len_slice_from; lia.
  - apply Z.ltb_ge in E. eexists; split; [reflexivity|]. lia.
Qed.

(** Two texts are cut down to [max_seq_length - 3] tokens in all. *)
Lemma truncated_tokens_paired `{Tokenizer} (text_a : string) (text_b : option string)
    (text : string) (max_seq_length : Z) :
  truthy_text text_b = Some text ->
  3 <= max_seq_length ->
  exists tokens_a tokens_b,
    truncated_tokens text_a text_b max_seq_length = Ok (tokens_a, Some tokens_b)
    /\ len tokens_a + len tokens_b <= max_seq_length - 3.
Proof.
  intros Hb Hmax. unfold truncated_tokens. rewrite Hb.
  destruct (truncate_seq_pair_spec (tokenize text_a) (tokenize text)
              (max_seq_length - 3)) as [[ta tb] [Hrun Hspec]]; [lia|].
  rewrite Hrun. cbn [bind]. exists ta, tb. split; [reflexivity|].
  exact (spec_truncation_within_budget _ _ _ Hspec).
Qed.

Lemma single_feature `{Tokenizer} (text : string) (max_seq_length : Z) :
  2 <= max_seq_length ->
  let real := Z.min (len (tokenize text)) (max_seq_length - 2) + 2 in
  exists input_ids segment_ids,
    _text_pair_to_feature text None max_seq_length =
      Ok (input_ids, segment_ids,
          py_repeat 1 real ++ py_repeat 0 (max_seq_length - real))
    /\ len input_ids = max_seq_length
    /\ len segment_ids = max_seq_length.
Proof.
  intros Hmax real. unfold _text_pair_to_feature.
  destruct (truncated_tokens_single text None max_seq_length eq_refl Hmax)
    as [kept [Hrun Hlen]].
  rewrite Hrun. cbn [bind].
  destruct (assemble_feature_fits kept None max_seq_length)
    as [ids [seg [Hasm [Hids Hseg]]]].
  { unfold second_segment_length. simpl truthy_tokens. cbv iota. lia. }
  exists ids, seg. split; [|now split].
  rewrite Hasm. unfold second_segment_length. simpl truthy_tokens. cbv iota.
  subst real. rewrite Hlen. do 3 f_equal; [f_equal; lia | f_equal; lia].
Qed.

(** C2: for every text, every optional secondary text and every
    [max_seq_length >= 3], [_text_pair_to_feature] returns, the three
    assertions passed, and [input_ids], [input_mask] and [segment_ids]
    each have exactly [max_seq_length] entries. *)
Theorem C2_feature_lengths `{Tokenizer} (text_a : string) (text_b : option string)
    (max_seq_length : Z) :
  3 <= max_seq_length ->
  exists input_ids segment_ids input_mask,
    _text_pair_to_feature text_a text_b max_seq_length =
      Ok (input_ids, segment_ids, input_mask)
    /\ len input_ids = max_seq_length
    /\ len input_mask = max_seq_length
    /\ len segment_ids = max_seq_length.
Proof.
  intros Hmax. unfold _text_pair_to_feature.
  assert (Hfit : exists tokens_a tokens_b,
             truncated_tokens text_a text_b max_seq_length = Ok (tokens_a, tokens_b)
             /\ len tokens_a + 2 + second_segment_length tokens_b <= max_seq_length).
  { destruct (truthy_text text_b) as [text|] eqn:Hb.
    - destruct (truncated_tokens_paired text_a text_b text max_seq_length Hb Hmax)
        as [ta [tb [Hrun Hlen]]].
      exists ta, (Some tb). split; [exact Hrun|].
      pose proof (second_segment_length_bound tb). lia.
    - destruct (truncated_tokens_single text_a text_b max_seq_length Hb)
        as [kept [Hrun Hlen]]; [lia|].
      exists kept, None. split; [exact Hrun|].
      unfold second_segment_length. simpl truthy_tokens. cbv iota. lia. }
  destruct Hfit as [ta [tb [Hrun Hfit]]].
  rewrite Hrun. cbn [bind].
  destruct (assemble_feature_fits ta tb max_seq_length Hfit)
    as [ids [seg [Hasm [Hids Hseg]]]].
  rewrite Hasm. eexists; eexists; eexists. split; [reflexivity|].
  split; [exact Hids|]. split; [|exact Hseg].
  pose proof (len_nonneg ta).
  assert (0 <= second_segment_length tb).
  { destruct tb as [b|]; [apply second_segment_length_bound|].
    unfold second_segment_length. simpl truthy_tokens. cbv iota. lia. }
  pylen. lia.
Qed.

Lemma C2_feature_lengths_witness :
  3 <= 8 /\
  exists input_ids segment_ids input_mask,
    @_text_pair_to_feature whitespace_tokenizer "cat sat on the mat"
        (Some "dog ran far away today"%string) 8 =
      Ok (input_ids, segment_ids, input_mask)
    /\ len input_ids = 8 /\ len input_mask = 8 /\ len segment_ids = 8.
Proof.
  split; [lia|].
  apply (@C2_feature_lengths whitespace_tokenizer "cat sat on the mat"
           (Some "dog ran far away today"%string) 8).
  lia.
Defined.

(** C3, as amended: for every text and every [max_seq_length >= 3], the
    feature built for a single text satisfies
    [sum(input_mask) == min(len(tokenize(text)), max_seq_length - 2) + 2]:
    the kept tokens, [CLS] and [SEP]. *)
Theorem C3_mask_sum `{Tokenizer} (text : string) (max_seq_length : Z) :
  3 <= max_seq_length ->
  exists f,
    _text_pair_to_feature text None max_seq_length = Ok f
    /\ py_sum (input_mask_of f) =
       Z.min (len (tokenize text)) (max_seq_length - 2) + 2.
Proof.
  intros Hmax.
  destruct (single_feature text max_seq_length) as [ids [seg [Hrun _]]]; [lia|].
  eexists. split; [exact Hrun|].
  unfold input_mask_of. cbn [snd]. rewrite py_sum_mask.
  pose proof (len_nonneg (tokenize text)). lia.
Qed.

Lemma C3_mask_sum_witness :
  3 <= 8 /\
  exists f,
    @_text_pair_to_feature whitespace_tokenizer "cat sat" None 8 = Ok f
    /\ py_sum (input_mask_of f) =
       Z.min (len (@tokenize whitespace_tokenizer "cat sat")) (8 - 2) + 2.
Proof.
  split; [lia|].
  apply (@C3_mask_sum whitespace_tokenizer "cat sat" 8). lia.
Defined.

(** C3, as stated, fails: for ["cat sat"] and [max_seq_length = 8] the
    mask is [1, 1, 1, 1, 0, 0, 0, 0], of sum 4, and
    [min(2, 8 - 2) + 1] is 3. *)
Lemma C3_counterexample :
  let f := ([5; 3; 3; 5; 0; 0; 0; 0],
            [0; 0; 0; 0; 0; 0; 0; 0],
            [1; 1; 1; 1; 0; 0; 0; 0]) in
  @_text_pair_to_feature whitespace_tokenizer "cat sat" None 8 = Ok f
  /\ py_sum (input_mask_of f) <>
     Z.min (len (@tokenize whitespace_tokenizer "cat sat")) (8 - 2) + 1.
Proof.
  split; [reflexivity|]. vm_compute. discriminate.
Qed.

(** ** The dataset *)

Lemma py_index_ok {A : Type} (l : list A) (i : Z) :
  - len l <= i < len l -> exists x, py_index l i = Ok x.
Proof.
  intros Hi. unfold py_index.
  set (j := if i <? 0 then i + len l else i).
  assert (Hj : 0 <= j < len l).
  { subst j. destruct (i <? 0) eqn:E;
      [apply Z.ltb_lt in E|apply Z.ltb_ge in E]; lia. }
  destruct (j <? 0) eqn:E; [apply Z.ltb_lt in E; lia|].
  destruct (nth_error l (Z.to_nat j)) as [x|] eqn:En; [now exists x|].
  apply nth_error_None in En. unfold len in Hj. lia.
Qed.

Lemma py_index_map {A B : Type} (f : A -> B) (l : list A) (i : Z) :
  py_index (map f l) i = bind (py_index l i) (fun x => Ok (f x)).
Proof.
  unfold py_index. rewrite len_map.
  destruct ((if i <? 0 then i + len l else i) <? 0); [reflexivity|].
  rewrite nth_error_map.
  now destruct (nth_error l _).
Qed.

Lemma py_index_In {A : Type} (l : list A) (i : Z) (x : A) :
  py_index l i = Ok x -> In x l.
Proof.
  unfold py_index.
  destruct (_ <? 0); [discriminate|].
  destruct (nth_error l _) as [y|] eqn:E; [|discriminate].
  intros [= <-]. eapply nth_error_In, E.
Qed.

(** With lists of one length the assertion of the constructor passes; an
    empty label list is replaced by the (empty) list of placeholders. *)
Lemma init_with_labels (ta tb tc : list string) (labels : list pylabel) :
  length ta = length labels ->
  length tb = length labels ->
  length tc = length labels ->
  __init__ ta tb tc (Some labels) =
  Ok {| text_a_list := ta; text_b_list := tb; text_c_list := tc;
        label_list := map numeric_label labels |}.
Proof.
  intros Ha Hb Hc. unfold __init__.
  assert (Hl : match labels with
               | [] => repeat (@None string) (length ta)
               | _ :: _ => labels
               end = labels).
  { destruct labels; [|reflexivity]. simpl in Ha. now rewrite Ha. }
  rewrite Hl. cbn [forallb]. unfold len.
  rewrite Ha, Hb, Hc, !Z.eqb_refl. reflexivity.
Qed.

Lemma getitem_ok (ta tb tc : list string) (nums : list Z) (index : Z) :
  length ta = length nums ->
  length tb = length nums ->
  length tc = length nums ->
  - len nums <= index < len nums ->
  exists text_a text_b text_c label,
    py_index ta index = Ok text_a /\ py_index tb index = Ok text_b
    /\ py_index tc index = Ok text_c /\ py_index nums index = Ok label
    /\ __getitem__ {| text_a_list := ta; text_b_list := tb; text_c_list := tc;
                      label_list := nums |} index
       = Ok (text_a, text_b, text_c, label).
Proof.
  intros Ha Hb Hc Hi.
  destruct (py_index_ok ta index) as [a Ea]; [unfold len in *; lia|].
  destruct (py_index_ok tb index) as [b Eb]; [unfold len in *; lia|].
  destruct (py_index_ok tc index) as [c Ec]; [unfold len in *; lia|].
  destruct (py_index_ok nums index) as [l El]; [lia|].
  exists a, b, c, l. repeat (split; [assumption|]).
  unfold __getitem__. cbn [text_a_list text_b_list text_c_list label_list].
  rewrite Ea, Eb, Ec, El. reflexivity.
Qed.

(** C5: for every dataset constructed from parallel lists with a label
    list whose entries are all ["B"] or ["C"], and every valid index
    (negative ones count from the end), [get(index)] returns the texts at
    that index and the numeric label, 0 when the label given at that index
    is ["B"] and 1 when it is ["C"]. *)
Theorem C5_getitem_label (ta tb tc : list string) (labels : list pylabel)
    (index : Z) :
  labels <> [] ->
  Forall (fun label => label = Some "B"%string \/ label = Some "C"%string) labels ->
  length ta = length labels ->
  length tb = length labels ->
  length tc = length labels ->
  - len labels <= index < len labels ->
  exists ds text_a text_b text_c label numeric,
    __init__ ta tb tc (Some labels) = Ok ds
    /\ __len__ ds = len labels
    /\ py_index ta index = Ok text_a
    /\ py_index tb index = Ok text_b
    /\ py_index tc index = Ok text_c
    /\ py_index labels index = Ok label
    /\ __getitem__ ds index = Ok (text_a, text_b, text_c, numeric)
    /\ ((label = Some "B"%string /\ numeric = 0)
        \/ (label = Some "C"%string /\ numeric = 1)).
Proof.
  intros _ Hbc Ha Hb Hc Hi.
  rewrite (init_with_labels ta tb tc labels Ha Hb Hc).
  destruct (getitem_ok ta tb tc (map numeric_label labels) index)
    as [a [b [c [n [Ea [Eb [Ec [En Hget]]]]]]]];
    rewrite ?length_map, ?len_map; try assumption.
  rewrite py_index_map in En.
  destruct (py_index labels index) as [label|] eqn:El; [|discriminate].
  cbn [bind] in En. injection En as <-.
  eexists; exists a, b, c, label, (numeric_label label).
  split; [reflexivity|].
  split; [unfold __len__; cbn [label_list]; apply len_map|].
  repeat (split; [first [assumption | reflexivity]|]).
  apply py_index_In in El.
  rewrite Forall_forall in Hbc.
  destruct (Hbc label El) as [-> | ->]; [left|right]; split; reflexivity.
Qed.

Lemma C5_getitem_label_witness :
  exists ds text_a text_b text_c label numeric,
    __init__ ["a1"; "a2"]%string ["b1"; "b2"]%string ["c1"; "c2"]%string
      (Some [Some "B"; Some "C"]%string) = Ok ds
    /\ __len__ ds = len [Some "B"; Some "C"]%string
    /\ py_index ["a1"; "a2"]%string (-1) = Ok text_a
    /\ py_index ["b1"; "b2"]%string (-1) = Ok text_b
    /\ py_index ["c1"; "c2"]%string (-1) = Ok text_c
    /\ py_index [Some "B"; Some "C"]%string (-1) = Ok label
    /\ __getitem__ ds (-1) = Ok (text_a, text_b, text_c, numeric)
    /\ ((label = Some "B"%string /\ numeric = 0)
        \/ (label = Some "C"%string /\ numeric = 1)).
Proof.
  apply (C5_getitem_label ["a1"; "a2"]%string ["b1"; "b2"]%string
           ["c1"; "c2"]%string [Some "B"; Some "C"]%string (-1)).
  - discriminate.
  - apply Forall_cons; [left; reflexivity|].
    apply Forall_cons; [right; reflexivity|].
    apply Forall_nil.
  - reflexivity.
  - reflexivity.
  - reflexivity.
  - unfold len. simpl. lia.
Defined.

(** *** Absent labels *)

Lemma all_labels_zero_of_B (ta tb tc : list string) (labels : list pylabel) :
  length ta = length labels ->
  length tb = length labels ->
  length tc = length labels ->
  Forall (fun label => label = Some "B"%string) labels ->
  all_labels_zero {| text_a_list := ta; text_b_list := tb; text_c_list := tc;
                     label_list := map numeric_label labels |}.
Proof.
  intros Ha Hb Hc HB index Hi.
  unfold __len__ in Hi. cbn [label_list] in Hi.
  destruct (getitem_ok ta tb tc (map numeric_label labels) index)
    as [a [b [c [n [_ [_ [_ [En Hget]]]]]]]];
    rewrite ?length_map; try assumption.
  exists a, b, c. rewrite Hget. do 2 f_equal.
  rewrite py_index_map in En.
  destruct (py_index labels index) as [label|] eqn:El; [|discriminate].
  cbn [bind] in En. injection En as <-.
  apply py_index_In in El. rewrite Forall_forall in HB.
  now rewrite (HB label El).
Qed.

Lemma has_label_default_label (df : DataFrame) :
  has_label (default_label df) = true.
Proof.
  unfold default_label. now destruct (has_label df) eqn:E.
Qed.

Lemma has_texts_default_label (df : DataFrame) :
  has_texts (default_label df) = has_texts df.
Proof.
  unfold default_label. now destruct (has_label df).
Qed.

Lemma default_label_idempotent (df : DataFrame) :
  default_label (default_label df) = default_label df.
Proof.
  unfold default_label at 1. now rewrite has_label_default_label.
Qed.

Lemma length_rows_default_label (df : DataFrame) :
  length (rows (default_label df)) = length (rows df).
Proof.
  unfold default_label. destruct (has_label df); [reflexivity|].
  cbn [negb set_label rows]. apply length_map.
Qed.

(** Without a label column every row gets the label ["B"]. *)
Lemma labels_default_label (df : DataFrame) :
  has_label df = false ->
  Forall (fun label => label = Some "B"%string)
         (map col_label (rows (default_label df))).
Proof.
  intros Hl. unfold default_label. rewrite Hl. cbn [negb set_label rows].
  apply Forall_forall. intros label Hin.
  apply in_map_iff in Hin. destruct Hin as [r [<- Hin]].
  apply in_map_iff in Hin. destruct Hin as [r0 [<- _]]. reflexivity.
Qed.

(** [from_dataframe] hands the columns to the constructor. *)
Lemma from_dataframe_eq (df : DataFrame) :
  has_texts df = true ->
  from_dataframe df =
  __init__ (map col_A (rows df)) (map col_B (rows df)) (map col_C (rows df))
           (Some (map col_label (rows (default_label df)))).
Proof.
  intros Ht. unfold from_dataframe, text_column, label_column.
  rewrite Ht, has_label_default_label. reflexivity.
Qed.

Lemma from_dataframe_without_label (df : DataFrame) :
  has_texts df = true ->
  has_label df = false ->
  exists ds,
    from_dataframe df = Ok ds
    /\ __len__ ds = len (rows df)
    /\ all_labels_zero ds.
Proof.
  intros Ht Hl. rewrite (from_dataframe_eq df Ht).
  rewrite init_with_labels
    by (rewrite !length_map; now rewrite length_rows_default_label).
  eexists. split; [reflexivity|]. split.
  - unfold __len__, len. cbn [label_list].
    now rewrite !length_map, length_rows_default_label.
  - apply all_labels_zero_of_B;
      rewrite ?length_map, ?length_rows_default_label; try reflexivity.
    now apply labels_default_label.
Qed.

Lemma DataFrame_of_records_without_label (data : list record) :
  Forall no_label_key data ->
  has_label (DataFrame_of_records data) = false.
Proof.
  intros Hno. cbn [DataFrame_of_records has_label].
  induction Hno as [|r data Hr _ IH]; [reflexivity|].
  cbn [existsb]. rewrite IH. unfold has_label_key. now rewrite Hr.
Qed.

Lemma from_dict_list_without_label (sample : list Row -> list Row)
    (data : list record) :
  data <> [] ->
  Forall no_label_key data ->
  exists ds,
    from_dict_list sample data false = Ok ds
    /\ __len__ ds = len data
    /\ all_labels_zero ds.
Proof.
  intros Hne Hno. unfold from_dict_list. cbn [bind].
  set (df := DataFrame_of_records data).
  assert (Ht : has_texts df = true)
    by (subst df; destruct data; [contradiction|reflexivity]).
  assert (Hl : has_label df = false)
    by now apply DataFrame_of_records_without_label.
  assert (Hn : length (rows df) = length data)
    by (subst df; cbn [DataFrame_of_records rows]; apply length_map).
  rewrite from_dataframe_eq by now rewrite has_texts_default_label.
  rewrite default_label_idempotent.
  rewrite init_with_labels by now rewrite !length_map.
  eexists. split; [reflexivity|]. split.
  - unfold __len__, len. cbn [label_list].
    now rewrite !length_map, length_rows_default_label, Hn.
  - apply all_labels_zero_of_B; rewrite ?length_map; try reflexivity.
    now apply labels_default_label.
Qed.

(** The constructor from parallel lists, without labels: the placeholder
    [None] is not ["B"], so every example is stored with the numeric
    label 1. *)
Lemma init_without_labels (ta tb tc : list string) (labels : option (list pylabel)) :
  labels = None \/ labels = Some [] ->
  length tb = length ta ->
  length tc = length ta ->
  __init__ ta tb tc labels =
  Ok {| text_a_list := ta; text_b_list := tb; text_c_list := tc;
        label_list := repeat 1 (length ta) |}.
Proof.
  intros Hl Hb Hc.
  assert (E : __init__ ta tb tc labels = __init__ ta tb tc None)
    by (destruct Hl as [-> | ->]; reflexivity).
  rewrite E. unfold __init__. cbn [forallb]. unfold len.
  rewrite repeat_length, Hb, Hc, !Z.eqb_refl. cbn [andb py_assert bind].
  now rewrite map_repeat.
Qed.

(** C4, as amended: on the dataframe path, and on the record-list and
    JSON-lines paths without augmentation, when the input has no label
    column every stored example gets the label ["B"], so [get(index)]
    returns the numeric label 0 for every valid index.  The constructor
    from parallel lists is left out. *)
Theorem C4_absent_labels_default_B (sample : list Row -> list Row)
    (json_loads : string -> result record) :
  (forall df : DataFrame,
      has_texts df = true ->
      has_label df = false ->
      exists ds, from_dataframe df = Ok ds
                 /\ __len__ ds = len (rows df) /\ all_labels_zero ds)
  /\ (forall data : list record,
         data <> [] ->
         Forall no_label_key data ->
         exists ds, from_dict_list sample data false = Ok ds
                    /\ __len__ ds = len data /\ all_labels_zero ds)
  /\ (forall (json_lines_file : list string) (data : list record),
         map_result json_loads json_lines_file = Ok data ->
         data <> [] ->
         Forall no_label_key data ->
         exists ds, from_jsons sample json_loads json_lines_file false = Ok ds
                    /\ __len__ ds = len data /\ all_labels_zero ds).
Proof.
  split; [exact from_dataframe_without_label|].
  split; [exact (from_dict_list_without_label sample)|].
  intros file data Hparse Hne Hno. unfold from_jsons.
  rewrite Hparse. cbn [bind].
  now apply from_dict_list_without_label.
Qed.

Lemma C4_absent_labels_default_B_witness :
  (exists ds,
      from_dataframe (DataFrame_of_records [record_abc]) = Ok ds
      /\ __len__ ds = len (rows (DataFrame_of_records [record_abc]))
      /\ all_labels_zero ds)
  /\ (exists ds,
         from_dict_list (fun l => l) [record_abc] false = Ok ds
         /\ __len__ ds = len [record_abc] /\ all_labels_zero ds)
  /\ (exists ds,
         from_jsons (fun l => l) line_as_text ["a"%string] false = Ok ds
         /\ __len__ ds = len [record_abc] /\ all_labels_zero ds).
Proof.
  destruct (C4_absent_labels_default_B (fun l => l) line_as_text)
    as [Hdf [Hrec Hjson]].
  split; [|split].
  - apply Hdf; reflexivity.
  - apply Hrec; [discriminate|].
    apply Forall_cons; [reflexivity|apply Forall_nil].
  - apply (Hjson ["a"%string] [record_abc]); [reflexivity|discriminate|].
    apply Forall_cons; [reflexivity|apply Forall_nil].
Defined.

(** C4, as stated, fails.  With augmentation the record list without
    labels gets the label ["B"] and then the derived rows, half of them
    labelled ["C"]: index 1 is read with the numeric label 1.  And the
    constructor from parallel lists fills absent labels with the [None]
    placeholder, which is not ["B"], so it stores 1. *)
Lemma C4_counterexample :
  (exists ds,
      from_dict_list (fun l => l) [record_abc] true = Ok ds
      /\ __getitem__ ds 1 = Ok ("a", "c", "b", 1)%string)
  /\ (exists ds,
         __init__ ["a"]%string ["b"]%string ["c"]%string None = Ok ds
         /\ __getitem__ ds 0 = Ok ("a", "b", "c", 1)%string).
Proof.
  split; eexists; split; reflexivity.
Qed.

(** *** Augmentation *)

Lemma row_eqb_eq (r1 r2 : Row) : row_eqb r1 r2 = true <-> r1 = r2.
Proof.
  unfold row_eqb. destruct r1 as [a1 b1 c1 l1], r2 as [a2 b2 c2 l2].
  cbn [col_A col_B col_C col_label].
  rewrite !andb_true_iff, !String.eqb_eq.
  split.
  - intros [[[-> ->] ->] Hl].
    destruct l1 as [s1|], l2 as [s2|]; try discriminate; [|reflexivity].
    apply String.eqb_eq in Hl. now subst.
  - intros [= -> -> -> ->]. repeat split.
    destruct l2 as [s2|]; [apply String.eqb_refl|reflexivity].
Qed.

Lemma drop_duplicates_length (l : list Row) :
  (length (drop_duplicates l) <= length l)%nat.
Proof.
  induction l as [|r l IH]; [reflexivity|].
  cbn [drop_duplicates length].
  pose proof (filter_length_le (fun r' => negb (row_eqb r r')) (drop_duplicates l)).
  lia.
Qed.

(** No row is lost. *)
Lemma drop_duplicates_In (l : list Row) (r : Row) :
  In r (drop_duplicates l) <-> In r l.
Proof.
  induction l as [|r0 l IH]; [reflexivity|].
  cbn [drop_duplicates In]. rewrite filter_In, IH.
  destruct (row_eqb r0 r) eqn:E.
  - apply row_eqb_eq in E. subst. tauto.
  - assert (r0 <> r) by (intros ->; now rewrite (proj2 (row_eqb_eq r r)) in E).
    cbn [negb]. tauto.
Qed.

(** No row is left twice. *)
Lemma drop_duplicates_NoDup (l : list Row) : NoDup (drop_duplicates l).
Proof.
  induction l as [|r l IH]; [constructor|].
  cbn [drop_duplicates]. constructor.
  - rewrite filter_In. intros [_ Hneq].
    now rewrite (proj2 (row_eqb_eq r r) eq_refl) in Hneq.
  - now apply NoDup_filter.
Qed.

Lemma rows_in_concat_length (df : DataFrame) :
  length (rows_in_concat df) = length (rows df).
Proof.
  unfold rows_in_concat. destruct (has_label df); [reflexivity|apply length_map].
Qed.

Lemma rows_in_concat_In (df : DataFrame) (r : Row) :
  In r (rows df) ->
  exists r', In r' (rows_in_concat df)
             /\ col_A r' = col_A r /\ col_B r' = col_B r /\ col_C r' = col_C r
             /\ (has_label df = true -> r' = r).
Proof.
  intros Hin. unfold rows_in_concat. destruct (has_label df).
  - exists r. now repeat split.
  - eexists. split; [apply in_map, Hin|]. repeat split. discriminate.
Qed.

Section AugmentProperties.
Variable sample : list Row -> list Row.
Hypothesis sample_permutes : forall l : list Row, Permutation l (sample l).

(** C6: for every input dataframe of N rows (with the text columns),
    [augment] returns a frame of at most 6N rows, no two of them equal,
    and every original row is among them with its texts and, when the
    input has a label column, its label unchanged. *)
Theorem C6_augment_size_and_originals (df : DataFrame) :
  has_texts df = true ->
  exists out,
    augment sample df = Ok out
    /\ (length (rows out) <= 6 * length (rows df))%nat
    /\ NoDup (rows out)
    /\ forall r, In r (rows df) ->
         exists r', In r' (rows out)
                    /\ col_A r' = col_A r /\ col_B r' = col_B r
                    /\ col_C r' = col_C r
                    /\ (has_label df = true -> r' = r).
Proof.
  intros Ht. unfold augment, permuted_copy. rewrite Ht. cbn [bind].
  eexists. split; [reflexivity|]. cbn [rows].
  split; [|split].
  - rewrite <- (Permutation_length (sample_permutes _)).
    etransitivity; [apply drop_duplicates_length|].
    rewrite !length_app, !length_map, rows_in_concat_length. lia.
  - eapply Permutation_NoDup; [apply sample_permutes|].
    apply drop_duplicates_NoDup.
  - intros r Hin.
    destruct (rows_in_concat_In df r Hin) as [r' [Hin' Hsame]].
    exists r'. split; [|exact Hsame].
    eapply Permutation_in; [apply sample_permutes|].
    apply drop_duplicates_In, in_or_app. now left.
Qed.
End AugmentProperties.

Lemma C6_augment_size_and_originals_witness :
  exists out,
    augment (fun l => l) (default_label (DataFrame_of_records [record_abc])) = Ok out
    /\ (length (rows out)
        <= 6 * length (rows (default_label (DataFrame_of_records [record_abc]))))%nat
    /\ NoDup (rows out)
    /\ forall r, In r (rows (default_label (DataFrame_of_records [record_abc]))) ->
         exists r', In r' (rows out)
                    /\ col_A r' = col_A r /\ col_B r' = col_B r
                    /\ col_C r' = col_C r
                    /\ (has_label (default_label (DataFrame_of_records [record_abc]))
                        = true -> r' = r).
Proof.
  apply (C6_augment_size_and_originals (fun l => l)).
  - intros l. apply Permutation_refl.
  - reflexivity.
Defined.

(** ** The shapes of the model *)

Section ShapeLemmas.
Local Open Scope nat_scope.

Lemma shape_eqb_refl (s : BertEsim.shape) : BertEsim.shape_eqb s s = true.
Proof. unfold BertEsim.shape_eqb. now destruct (list_eq_dec Nat.eq_dec s s). Qed.

Lemma broadcast_rev_same (r : list nat) : BertEsim.broadcast_rev r r = Ok r.
Proof.
  induction r as [|d r IH]; [reflexivity|].
  cbn [BertEsim.broadcast_rev]. rewrite IH. cbn [bind].
  now rewrite Nat.eqb_refl.
Qed.

Lemma broadcast_same (s : BertEsim.shape) : BertEsim.broadcast s s = Ok s.
Proof.
  unfold BertEsim.broadcast. rewrite broadcast_rev_same. cbn [bind].
  now rewrite rev_involutive.
Qed.

(** A last dimension of size 1 is stretched. *)
Lemma broadcast_last_1 (front : BertEsim.shape) (w : nat) :
  BertEsim.broadcast (front ++ [w]) (front ++ [1]) = Ok (front ++ [w]).
Proof.
  unfold BertEsim.broadcast. rewrite !rev_app_distr.
  cbn [rev app BertEsim.broadcast_rev].
  rewrite broadcast_rev_same. cbn [bind].
  assert (E : (if w =? 1 then Ok (w :: rev front)
               else if w =? 1 then Ok (1 :: rev front)
               else if 1 =? 1 then Ok (w :: rev front)
               else Raise RuntimeError) = Ok (w :: rev front))
    by (destruct (w =? 1); reflexivity).
  rewrite E. cbn [bind rev]. now rewrite rev_involutive.
Qed.

Lemma cat_four_last (b s w : nat) :
  BertEsim.cat [[b; s; w]; [b; s; w]; [b; s; w]; [b; s; w]] (-1)
  = Ok [b; s; 4 * w].
Proof.
  unfold BertEsim.cat. cbn [length].
  change (BertEsim.norm_dim 3 (-1)) with (@Ok nat 2).
  cbn [bind forallb]. rewrite shape_eqb_refl. cbn.
  repeat f_equal; lia.
Qed.

Lemma cat_four_dim1 (b w : nat) :
  BertEsim.cat [[b; w]; [b; w]; [b; w]; [b; w]] 1 = Ok [b; 4 * w].
Proof.
  unfold BertEsim.cat. cbn [length].
  change (BertEsim.norm_dim 2 1) with (@Ok nat 1).
  cbn [bind forallb]. rewrite shape_eqb_refl. cbn.
  repeat f_equal; lia.
Qed.
End ShapeLemmas.

Section ModelProperties.
Local Open Scope nat_scope.

Variable config : BertEsim.BertConfig.

Local Abbreviation self := (BertEsim.__init__ config).
Local Abbreviation h := (BertEsim.hidden_size config).

(** Both encoders are bidirectional: they take vectors of the hidden size
    and give vectors twice as wide. *)
Lemma encoder_forward (enc : BertEsim.Seq2SeqEncoder) (b s : nat) :
  enc = BertEsim._encoding self \/ enc = BertEsim._composition self ->
  BertEsim.Seq2SeqEncoder_forward enc [b; s; h] [b] = Ok [b; s; 2 * h].
Proof.
  intros [-> | ->]; unfold BertEsim.Seq2SeqEncoder_forward; cbn -[Nat.mul];
    now rewrite !Nat.eqb_refl.
Qed.

Lemma attention_forward (b sa sb w : nat) :
  BertEsim.SoftmaxAttention_forward [b; sa; w] [b; sa] [b; sb; w] [b; sb]
  = Ok ([b; sa; w], [b; sb; w]).
Proof.
  unfold BertEsim.SoftmaxAttention_forward. now rewrite !Nat.eqb_refl.
Qed.

Lemma enhance_forward (b s w : nat) :
  BertEsim.enhance [b; s; w] [b; s; w] = Ok [b; s; 4 * w].
Proof.
  unfold BertEsim.enhance. rewrite broadcast_same. cbn [bind].
  apply cat_four_last.
Qed.

Lemma projection_forward (b s : nat) :
  BertEsim.Sequential (BertEsim._projection self) [b; s; 4 * (2 * h)]
  = Ok [b; s; h].
Proof.
  cbn -[Nat.mul Nat.eqb].
  replace (4 * (2 * h) =? 4 * 2 * BertEsim.hidden_size config) with true
    by (symmetry; apply Nat.eqb_eq; lia).
  reflexivity.
Qed.

Lemma masked_average_forward (b s w : nat) :
  BertEsim.masked_average [b; s; w] [b; s] = Ok [b; w].
Proof.
  unfold BertEsim.masked_average.
  change (BertEsim.unsqueeze [b; s] 1) with (Ok [b; 1; s]).
  cbn [bind BertEsim.transpose_2_1].
  pose proof (broadcast_last_1 [b; s] w) as E. cbn [app] in E.
  rewrite E. cbn [bind].
  change (BertEsim.sum_dim [b; s; w] 1 false) with (Ok [b; w]).
  change (BertEsim.sum_dim [b; s] 1 true) with (Ok [b; 1]).
  cbn [bind]. apply (broadcast_last_1 [b] w).
Qed.

Lemma masked_max_forward (b s w : nat) :
  0 < s -> BertEsim.masked_max [b; s; w] [b; s] = Ok [b; w].
Proof.
  intros Hs. unfold BertEsim.masked_max, BertEsim.replace_masked.
  rewrite !Nat.eqb_refl. cbn [andb bind].
  unfold BertEsim.max_dim. cbn [length].
  change (BertEsim.norm_dim 3 1) with (@Ok nat 1). cbn [bind].
  change (BertEsim.size_at 1 [b; s; w]) with s.
  destruct (s =? 0) eqn:E; [apply Nat.eqb_eq in E; lia|reflexivity].
Qed.

(** The siamese vector: four pooled vectors, each as wide as the output
    of the bidirectional composition encoder. *)
Lemma siamese_forward (b sa sb : nat) :
  0 < sa -> 0 < sb ->
  BertEsim.siamese self [b; sa; h] [b; sb; h] [b; sa] [b; sb] = Ok [b; 8 * h].
Proof.
  intros Ha Hb. unfold BertEsim.siamese.
  change (BertEsim.sum_dim [b; sa] (-1) false) with (Ok [b]).
  change (BertEsim.sum_dim [b; sb] (-1) false) with (Ok [b]).
  cbn [bind].
  rewrite !encoder_forward by (left; reflexivity). cbn [bind].
  rewrite attention_forward. cbn [bind].
  rewrite !enhance_forward. cbn [bind].
  rewrite !projection_forward. cbn [bind].
  rewrite !encoder_forward by (right; reflexivity). cbn [bind].
  rewrite !masked_average_forward. cbn [bind].
  rewrite !masked_max_forward by assumption. cbn [bind].
  rewrite cat_four_dim1. do 3 f_equal. lia.
Qed.

Lemma classification_forward (b : nat) :
  BertEsim.Sequential (BertEsim._classification self) [b; 8 * h] = Ok [b; 2].
Proof.
  cbn -[Nat.mul Nat.eqb].
  replace (8 * h =? 4 * 2 * BertEsim.hidden_size config) with true
    by (symmetry; apply Nat.eqb_eq; lia).
  cbn -[Nat.mul Nat.eqb]. now rewrite Nat.eqb_refl.
Qed.

Lemma classifier_output_forward (b sa sb sc : nat) :
  0 < sa -> 0 < sb -> 0 < sc ->
  BertEsim.classifier_output self (BertEsim.batch_input b sa)
    (BertEsim.batch_input b sb) (BertEsim.batch_input b sc) = Ok [b; 2].
Proof.
  intros Ha Hb Hc. unfold BertEsim.classifier_output, BertEsim.batch_input.
  cbn [fst snd]. unfold BertEsim.embedding_forward. cbn [app].
  change (BertEsim._embedding self) with h.
  rewrite !siamese_forward by assumption. cbn [bind].
  rewrite broadcast_same. cbn [bind].
  apply classification_forward.
Qed.

(** C7, as amended: the siamese vector has width exactly 8 times the
    configured hidden size (the masked average and the masked maximum of
    each side, each twice the hidden size wide, since the composition
    encoder is bidirectional), and the first linear layer of the classifier
    head maps [8 * hidden_size] to [hidden_size]. *)
Theorem C7_siamese_width (b sa sb : nat) :
  0 < sa -> 0 < sb ->
  BertEsim.siamese self [b; sa; h] [b; sb; h] [b; sa] [b; sb] = Ok [b; 8 * h]
  /\ BertEsim.first_linear (BertEsim._classification self) = Some (8 * h, h).
Proof.
  intros Ha Hb. split; [now apply siamese_forward|].
  reflexivity.
Qed.
End ModelProperties.

Lemma C7_siamese_width_witness :
  let config := {| BertEsim.hidden_size := 16 |} in
  BertEsim.siamese (BertEsim.__init__ config)
    [2; 8; 16]%nat [2; 5; 16]%nat [2; 8]%nat [2; 5]%nat = Ok [2; 8 * 16]%nat
  /\ BertEsim.first_linear (BertEsim._classification (BertEsim.__init__ config))
     = Some (8 * 16, 16)%nat.
Proof.
  apply (C7_siamese_width {| BertEsim.hidden_size := 16 |} 2 8 5); lia.
Defined.

(** C7, as stated, fails: with a hidden size of 16 the siamese vector has
    128 entries per row, not 64, and the first linear layer of the
    classifier head takes 128 features, not 64. *)
Lemma C7_counterexample :
  let self := BertEsim.__init__ {| BertEsim.hidden_size := 16 |} in
  BertEsim.siamese self [2; 8; 16]%nat [2; 5; 16]%nat [2; 8]%nat [2; 5]%nat
    = Ok [2; 128]%nat
  /\ BertEsim.first_linear (BertEsim._classification self) = Some (128, 16)%nat
  /\ ~ (BertEsim.siamese self [2; 8; 16]%nat [2; 5; 16]%nat [2; 8]%nat [2; 5]%nat
          = Ok [2; 4 * 16]%nat
        /\ BertEsim.first_linear (BertEsim._classification self)
           = Some (4 * 16, 16)%nat).
Proof.
  split; [reflexivity|]. split; [reflexivity|].
  intros [Hwidth _]. vm_compute in Hwidth. discriminate Hwidth.
Qed.

(** ** The dispatch on [mode] *)

(** With a mode that is none of the four, no branch of the dispatch is
    taken: [forward] raises what the computation of the classifier output
    raises, and returns [None] when that raises nothing.  [labels] is not
    read. *)
Lemma forward_unknown_mode (self : BertEsim.BertForSimMatchModel)
    (a b c : BertEsim.input) (labels : option Tensor) (mode : string) :
  mode <> "prob"%string -> mode <> "logits"%string ->
  mode <> "loss"%string -> mode <> "evaluate"%string ->
  BertEsim.forward self a b c labels mode =
  bind (BertEsim.classifier_output self a b c) (fun _ => Ok BertEsim.VNone).
Proof.
  intros Hprob Hlogits Hloss Hevaluate. unfold BertEsim.forward.
  apply String.eqb_neq in Hprob, Hlogits, Hloss, Hevaluate.
  now rewrite Hprob, Hlogits, Hloss, Hevaluate.
Qed.

(** C10: for every input batch (three inputs, each of tensors of [batch]
    rows and a positive number of columns), every [labels] and every mode
    string outside ["prob"], ["logits"], ["loss"] and ["evaluate"],
    [forward] falls through every branch of the dispatch and returns
    [None]; nothing is raised. *)
Theorem C10_unknown_mode_returns_None (config : BertEsim.BertConfig)
    (batch seq_a seq_b seq_c : nat) (labels : option Tensor)
    (mode : string) :
  (0 < seq_a)%nat -> (0 < seq_b)%nat -> (0 < seq_c)%nat ->
  mode <> "prob"%string -> mode <> "logits"%string ->
  mode <> "loss"%string -> mode <> "evaluate"%string ->
  BertEsim.forward (BertEsim.__init__ config)
    (BertEsim.batch_input batch seq_a) (BertEsim.batch_input batch seq_b)
    (BertEsim.batch_input batch seq_c) labels mode
  = Ok BertEsim.VNone.
Proof.
  intros Ha Hb Hc Hprob Hlogits Hloss Hevaluate.
  rewrite forward_unknown_mode by assumption.
  now rewrite classifier_output_forward.
Qed.

Lemma C10_unknown_mode_returns_None_witness :
  BertEsim.forward (BertEsim.__init__ {| BertEsim.hidden_size := 16 |})
    (BertEsim.batch_input 2 8) (BertEsim.batch_input 2 8)
    (BertEsim.batch_input 2 8) None "probs"
  = Ok BertEsim.VNone.
Proof.
  apply (C10_unknown_mode_returns_None {| BertEsim.hidden_size := 16 |}
           2 8 8 8 None "probs"); first [lia | discriminate].
Defined.

(** The four modes on the same batch, for comparison: ["loss"] and
    ["evaluate"] read [labels] and raise when there is none. *)
Lemma forward_known_modes :
  let self := BertEsim.__init__ {| BertEsim.hidden_size := 16 |} in
  let x := BertEsim.batch_input 2 8 in
  BertEsim.forward self x x x None "prob" = Ok (BertEsim.VTensor [2; 2]%nat)
  /\ BertEsim.forward self x x x None "logits" = Ok (BertEsim.VTensor [2; 2]%nat)
  /\ BertEsim.forward self x x x None "loss" = Raise AttributeError
  /\ BertEsim.forward self x x x
       (Some {| shape := [2; 1]%nat; data := [0; 1] |}) "evaluate"
     = Ok (BertEsim.VTuple [[2; 2]; [2; 2]; []]%nat).
Proof. repeat split. Qed.

(** ** The modes ["prob"] and ["logits"] on the values *)

Section ModeContract.
Context `{BertEsimValues.Torch}.
Import BertEsimValues.

(** C8, as amended: for every input batch [(a, b, c)], when the module
    is in evaluation mode (the dropout layers are the identity), or when
    the dropout layers draw in the second call the masks they drew in the
    first, the output of [forward] with the mode ["prob"] is the row-wise
    softmax of the output of [forward] with the mode ["logits"], whatever
    the labels given to each call; the two are equal, hence within every
    tolerance, and when one call raises the other raises the same. *)
Theorem C8_prob_is_softmax_of_logits (training : bool) (d1 d2 d1' d2' : draw)
    (a b c : tensor_triple) (labels labels' : option Tensor) :
  training = false \/ (d1' = d1 /\ d2' = d2) ->
  forward training d1 d2 a b c labels "prob"
  = softmax_of (forward training d1' d2' a b c labels' "logits").
Proof.
  intros Hsame.
  assert (Hout : _classification training d1' d2' = _classification training d1 d2).
  { destruct Hsame as [-> | [-> ->]]; reflexivity. }
  unfold forward, softmax_of. rewrite Hout.
  destruct (siamese_of_pair a b) as [v_ab|e]; [|reflexivity].
  destruct (siamese_of_pair a c) as [v_ac|e]; [|reflexivity].
  cbn [bind].
  destruct (subtract v_ab v_ac) as [subtraction|e]; [|reflexivity].
  cbn [bind].
  destruct (_classification training d1 d2 subtraction) as [output|e]; reflexivity.
Qed.
End ModeContract.

Lemma C8_prob_is_softmax_of_logits_witness :
  BertEsimValues.forward (H := RealTorch.torch RealTorch.one_unit_model) false
    RealTorch.keep_all RealTorch.keep_all
    RealTorch.one_item RealTorch.one_item RealTorch.one_item None "prob"
  = BertEsimValues.softmax_of
      (BertEsimValues.forward (H := RealTorch.torch RealTorch.one_unit_model) false
         RealTorch.keep_all RealTorch.drop_all
         RealTorch.one_item RealTorch.one_item RealTorch.one_item None "logits").
Proof.
  apply (@C8_prob_is_softmax_of_logits (RealTorch.torch RealTorch.one_unit_model) false).
  left. reflexivity.
Defined.

Section OneUnitModel.
Import RealTorch.
Local Open Scope R_scope.

Ltac run_one_unit_model :=
  cbv [BertEsimValues.forward BertEsimValues.softmax_of BertEsimValues._classification
       BertEsimValues.dropout
       BertEsimValues.siamese_of_pair BertEsimValues.subtract BertEsimValues.dropout_with
       BertEsimValues.linear1 BertEsimValues.linear2 BertEsimValues.tanh
       BertEsimValues.softmax torch one_unit_model siamese_vector hidden_dropout_prob
       hidden_size weight1 bias1 weight2 bias2 bind subtract same_lengths
       zip_with combine forallb length Nat.eqb andb fst snd linear Nat.mul Nat.add
       map dot total fold_right dropout_with mapi keep_all drop_all softmax softmax_row
       String.eqb Ascii.eqb Bool.eqb].

(** The hidden unit of the model: [tanh 1] is above 3/5. *)
Lemma tanh_1_bound : 3 / 5 < Rtrigo_def.tanh 1.
Proof.
  pose proof (exp_ineq1 1) as Ha.
  pose proof (exp_pos (Ropp 1)) as Hb.
  pose proof (exp_plus 1 (Ropp 1)) as Hab.
  replace (1 + Ropp 1) with 0 in Hab by lra. rewrite exp_0 in Hab.
  assert (Ha' : 2 < exp 1) by lra.
  unfold Rtrigo_def.tanh, sinh, cosh.
  set (a := exp 1) in *. set (b := exp (Ropp 1)) in *.
  assert (Hb' : 4 * b < a) by nra.
  replace ((a - b) / 2 / ((a + b) / 2)) with ((a - b) / (a + b)) by (field; lra).
  apply Rmult_lt_reg_r with (a + b); [lra|].
  replace ((a - b) / (a + b) * (a + b)) with (a - b) by (field; lra).
  lra.
Qed.

(** C8, as stated, fails: a module is in training mode until [eval()] is
    called, and each call of [forward] then draws its own dropout masks.
    On the model of one hidden unit with the dropout probability 1/10, a
    call in the mode ["prob"] whose dropout layers keep every entry and a
    call in the mode ["logits"] on the same batch whose second dropout
    layer drops the hidden unit differ: the second probability of the
    first call is more than 1/8 below the second entry of the softmax of
    the logits of the second call. *)
Lemma C8_counterexample :
  exists p0 p1 q0 q1 : R,
    BertEsimValues.forward (H := torch one_unit_model) true keep_all keep_all
      one_item one_item one_item None "prob"
    = Ok (BertEsimValues.VTensor (H := torch one_unit_model) [[p0; p1]])
    /\ BertEsimValues.softmax_of
         (BertEsimValues.forward (H := torch one_unit_model) true keep_all drop_all
            one_item one_item one_item None "logits")
       = Ok (BertEsimValues.VTensor (H := torch one_unit_model) [[q0; q1]])
    /\ 1 / 8 < q1 - p1.
Proof.
  do 4 eexists. split; [run_one_unit_model; reflexivity|].
  split; [run_one_unit_model; reflexivity|].
  match goal with
  | |- context [Rtrigo_def.tanh ?x] => replace x with 1 by lra
  end.
  pose proof tanh_1_bound as Ht.
  set (t := Rtrigo_def.tanh 1) in *.
  replace (t / (1 - 1 / 10) * 1 + 0 + 0) with (t * (10 / 9)) by lra.
  replace (t / (1 - 1 / 10) * 0 + 0 + 0) with 0 by lra.
  replace (0 * 1 + 0 + 0) with 0 by lra.
  replace (0 * 0 + 0 + 0) with 0 by lra.
  rewrite exp_0.
  assert (Hw : 1 + t * (10 / 9) < exp (t * (10 / 9))) by (apply exp_ineq1; lra).
  set (w := exp (t * (10 / 9))) in *.
  assert (Hp : 1 / (w + (1 + 0)) < 3 / 8).
  { apply Rmult_lt_reg_r with (w + (1 + 0)); [lra|].
    replace (1 / (w + (1 + 0)) * (w + (1 + 0))) with 1 by (field; lra).
    lra. }
  lra.
Qed.
End OneUnitModel.

(** * Further properties of the code *)

(** ** [_truncate_seq_pair]: what is kept *)

Lemma spec_truncation_lengths (budget : Z) (st st' : loop_state) :
  0 <= budget ->
  spec_truncation budget st st' ->
  len (fst st') = kept_a (len (fst st)) (len (snd st)) budget
  /\ len (snd st') = kept_b (len (fst st)) (len (snd st)) budget.
Proof.
  intros Hb. unfold kept_a, kept_b.
  induction 1 as [st Hstop|st st' st'' Hmore Hrm _ [IHa IHb]].
  - unfold total_length in Hstop.
    pose proof (len_nonneg (fst st)). pose proof (len_nonneg (snd st)).
    Z.div_mod_to_equations. lia.
  - rewrite IHa, IHb. unfold total_length in Hmore.
    inversion Hrm as [x a b Hlong|y a b Hlong]; subst;
      cbn [fst snd] in *; pylen;
      pose proof (len_nonneg a); pose proof (len_nonneg b);
      Z.div_mod_to_equations; lia.
Qed.

Lemma skipn_by_length {A : Type} (l : list A) (i : nat) :
  skipn i l = last_n l (len (skipn i l)).
Proof.
  unfold last_n, len. rewrite length_skipn.
  destruct (Nat.le_gt_cases i (length l)) as [Hi|Hi].
  - f_equal. lia.
  - rewrite skipn_all2 by lia.
    replace (Z.to_nat _) with (length l) by lia.
    now rewrite skipn_all.
Qed.

(** X1: with a budget that is not negative the loop returns the last
    [kept_a] tokens of the first list and the last [kept_b] tokens of the
    second: each side is cut to its half of the budget, the first side
    getting the odd token, unless the other side is short and leaves it
    more. *)
Theorem truncate_seq_pair_closed_form (tokens_a tokens_b : list token) (budget : Z) :
  0 <= budget ->
  _truncate_seq_pair tokens_a tokens_b budget =
  Ok (last_n tokens_a (kept_a (len tokens_a) (len tokens_b) budget),
      last_n tokens_b (kept_b (len tokens_a) (len tokens_b) budget)).
Proof.
  intros Hb.
  destruct (truncate_seq_pair_spec tokens_a tokens_b budget Hb) as [[a' b'] [Hrun Hspec]].
  rewrite Hrun. f_equal.
  destruct (spec_truncation_lengths _ _ _ Hb Hspec) as [Ha Hlb].
  destruct (spec_truncation_suffix _ _ _ Hspec) as [i [j [Hi Hj]]].
  cbn [fst snd] in *. rewrite <- Ha, <- Hlb.
  rewrite Hi at 1. rewrite Hj at 1.
  rewrite (skipn_by_length tokens_a i), (skipn_by_length tokens_b j).
  now rewrite <- Hi, <- Hj.
Qed.

Lemma truncate_seq_pair_closed_form_witness :
  _truncate_seq_pair ["a"; "b"; "c"; "d"]%string ["x"]%string 3 =
  Ok (last_n ["a"; "b"; "c"; "d"]%string
        (kept_a (len ["a"; "b"; "c"; "d"]%string) (len ["x"]%string) 3),
      last_n ["x"]%string
        (kept_b (len ["a"; "b"; "c"; "d"]%string) (len ["x"]%string) 3)).
Proof.
  apply (truncate_seq_pair_closed_form ["a"; "b"; "c"; "d"]%string ["x"]%string 3).
  lia.
Defined.

(** X2: with a negative budget the loop raises [IndexError], whatever
    the lists hold: it pops until both are empty and then pops again. *)
Theorem truncate_seq_pair_raises_below_zero (tokens_a tokens_b : list token)
    (budget : Z) :
  budget < 0 ->
  _truncate_seq_pair tokens_a tokens_b budget = Raise IndexError.
Proof.
  intros Hb. unfold _truncate_seq_pair.
  rewrite truncate_loop_negative_budget; [reflexivity|assumption|].
  unfold truncate_fuel. lia.
Qed.

Lemma truncate_seq_pair_raises_below_zero_witness :
  _truncate_seq_pair ["a"; "b"]%string ["x"; "y"; "z"]%string (-2) = Raise IndexError.
Proof.
  apply (truncate_seq_pair_raises_below_zero ["a"; "b"]%string
           ["x"; "y"; "z"]%string (-2)).
  lia.
Defined.

(** ** [_text_pair_to_feature]: the layout of a feature *)

Section FeatureLayout.
Context `{Tokenizer}.

Lemma second_segment_length_tokens (tokens_b : option (list token)) :
  second_segment_length tokens_b =
  match second_tokens tokens_b with [] => 0 | _ => len (second_tokens tokens_b) + 1 end.
Proof. now destruct tokens_b as [[|y b]|]. Qed.

Lemma py_repeat_eq {A : Type} (x : A) (n m : Z) :
  n = m -> py_repeat x n = py_repeat x m.
Proof. now intros ->. Qed.

Lemma Ok_feature_eq (ids ids' seg seg' mask mask' : list Z) :
  ids = ids' -> seg = seg' -> mask = mask' ->
  @Ok feature (ids, seg, mask) = Ok (ids', seg', mask').
Proof. now intros -> -> ->. Qed.

(** When the tokens fit, the assertions pass and the feature is the
    layout. *)
Lemma assemble_feature_layout (tokens_a : list token)
    (tokens_b : option (list token)) (max_seq_length : Z) :
  len tokens_a + 2 + second_segment_length tokens_b <= max_seq_length ->
  assemble_feature tokens_a tokens_b max_seq_length =
  Ok (feature_layout tokens_a (second_tokens tokens_b) max_seq_length).
Proof.
  intros Hfit. pose proof (len_nonneg tokens_a) as Ha.
  unfold assemble_feature, feature_layout, second_segment_length in *.
  destruct tokens_b as [[|y b]|]; cbn [truthy_tokens second_tokens] in *;
    cbv beta iota zeta;
    try pose proof (len_nonneg b) as Hb.
  all: repeat match goal with
       | |- context [py_assert (?x =? ?y)] =>
           replace (x =? y) with true
             by (symmetry; apply Z.eqb_eq; unfold convert_tokens_to_ids;
                 pylen; lia)
       end.
  all: cbn [py_assert bind].
  all: rewrite <- ?app_assoc.
  all: change (py_repeat 1 0) with (@nil Z).
  all: cbn [app].
  all: apply Ok_feature_eq.
  all: repeat apply (f_equal2 (@app Z)).
  all: first [ reflexivity
             | apply py_repeat_eq; unfold convert_tokens_to_ids; pylen; lia ].
Qed.
End FeatureLayout.

Lemma len_last_n {A : Type} (l : list A) (n : Z) :
  0 <= n -> len (last_n l n) = Z.min (len l) n.
Proof.
  intros Hn. unfold last_n, len. rewrite length_skipn. lia.
Qed.

Lemma py_repeat_app {A : Type} (x : A) (n m : Z) :
  0 <= n -> 0 <= m -> py_repeat x n ++ py_repeat x m = py_repeat x (n + m).
Proof.
  intros Hn Hm. unfold py_repeat. rewrite <- repeat_app. f_equal. lia.
Qed.

Lemma skipn_len_app {A : Type} (l1 l2 : list A) (k : Z) :
  len l1 = k -> skipn (Z.to_nat k) (l1 ++ l2) = l2.
Proof.
  intros <-. unfold len. rewrite Nat2Z.id, skipn_app, skipn_all, Nat.sub_diag.
  reflexivity.
Qed.

Section FeatureProperties.
Context `{Tokenizer}.

(** A single text is cut to its last [max_seq_length - 2] tokens. *)
Lemma truncated_tokens_last_n (text_a : string) (text_b : option string)
    (max_seq_length : Z) :
  truthy_text text_b = None ->
  truncated_tokens text_a text_b max_seq_length =
  Ok (last_n (tokenize text_a) (max_seq_length - 2), None).
Proof.
  intros Hb. unfold truncated_tokens. rewrite Hb.
  pose proof (len_nonneg (tokenize text_a)) as Hlen.
  destruct (max_seq_length - 2 <? len (tokenize text_a)) eqn:E.
  - apply Z.ltb_lt in E. unfold slice_from, last_n.
    destruct (_ <? 0) eqn:E0; [apply Z.ltb_lt in E0; lia|reflexivity].
  - apply Z.ltb_ge in E. unfold last_n.
    replace (Z.to_nat _) with 0%nat by lia. reflexivity.
Qed.

(** X3: without a second text, a [max_seq_length] below 2 makes the
    first length assertion fail, whatever the text: [CLS] and [SEP] alone
    take two positions, and the padding cannot be negative. *)
Theorem single_text_feature_below_two (text_a : string) (text_b : option string)
    (max_seq_length : Z) :
  truthy_text text_b = None ->
  max_seq_length < 2 ->
  _text_pair_to_feature text_a text_b max_seq_length = Raise AssertionError.
Proof.
  intros Hb Hmax. unfold _text_pair_to_feature.
  rewrite (truncated_tokens_last_n text_a text_b max_seq_length Hb). cbn [bind].
  assert (Hnone : last_n (tokenize text_a) (max_seq_length - 2) = []).
  { unfold last_n. apply skipn_all2. unfold len. lia. }
  rewrite Hnone. unfold assemble_feature. cbn [truthy_tokens]. cbv beta iota zeta.
  replace (len _ =? max_seq_length) with false; [reflexivity|].
  symmetry. apply Z.eqb_neq. unfold convert_tokens_to_ids. pylen. lia.
Qed.

(** X4: with a second text that is not empty, a [max_seq_length] below 3
    raises [IndexError] in the truncation loop, whatever the texts. *)
Theorem paired_feature_below_three (text_a text_b : string) (max_seq_length : Z) :
  text_b <> EmptyString ->
  max_seq_length < 3 ->
  _text_pair_to_feature text_a (Some text_b) max_seq_length = Raise IndexError.
Proof.
  intros Hb Hmax. unfold _text_pair_to_feature.
  rewrite truncated_tokens_pair by assumption.
  rewrite truncate_seq_pair_negative_budget by lia. reflexivity.
Qed.

(** X5: without a second text and with [max_seq_length >= 2] the feature
    is [CLS], the last [max_seq_length - 2] tokens of the text (the front
    of a long text is dropped), [SEP] and zeros; every segment id is 0, and
    the mask counts the kept tokens and the two special ones. *)
Theorem single_text_feature_layout (text_a : string) (text_b : option string)
    (max_seq_length : Z) :
  truthy_text text_b = None ->
  2 <= max_seq_length ->
  _text_pair_to_feature text_a text_b max_seq_length =
    Ok (single_text_feature text_a max_seq_length)
  /\ input_ids_of (single_text_feature text_a max_seq_length) =
     convert_tokens_to_ids
       ([CLS] ++ last_n (tokenize text_a) (max_seq_length - 2) ++ [SEP])
     ++ py_repeat 0 (max_seq_length - 2
                     - Z.min (len (tokenize text_a)) (max_seq_length - 2))
  /\ segment_ids_of (single_text_feature text_a max_seq_length) =
     py_repeat 0 max_seq_length
  /\ py_sum (input_mask_of (single_text_feature text_a max_seq_length)) =
     Z.min (len (tokenize text_a)) (max_seq_length - 2) + 2.
Proof.
  intros Hb Hmax.
  pose proof (len_nonneg (tokenize text_a)) as Hlen.
  assert (Hkept : len (last_n (tokenize text_a) (max_seq_length - 2))
                  = Z.min (len (tokenize text_a)) (max_seq_length - 2))
    by (apply len_last_n; lia).
  split; [|split; [|split]].
  - unfold _text_pair_to_feature.
    rewrite (truncated_tokens_last_n text_a text_b max_seq_length Hb). cbn [bind].
    rewrite assemble_feature_layout; [reflexivity|].
    rewrite second_segment_length_tokens. cbn [second_tokens]. lia.
  - unfold single_text_feature, feature_layout, input_ids_of. cbn [fst].
    rewrite app_nil_r. f_equal. apply py_repeat_eq. lia.
  - unfold single_text_feature, feature_layout, segment_ids_of. cbn [fst snd].
    change (py_repeat 1 0) with (@nil Z). cbn [app].
    rewrite py_repeat_app by lia. apply py_repeat_eq. lia.
  - unfold single_text_feature, feature_layout, input_mask_of. cbn [snd].
    rewrite py_sum_mask. lia.
Qed.

(** With [max_seq_length >= 3] the feature is the layout of the tokens
    the truncation leaves, for one text and for two. *)
Lemma text_pair_feature_layout (text_a : string) (text_b : option string)
    (max_seq_length : Z) :
  3 <= max_seq_length ->
  exists tokens_a tokens_b,
    truncated_tokens text_a text_b max_seq_length = Ok (tokens_a, tokens_b)
    /\ _text_pair_to_feature text_a text_b max_seq_length =
       Ok (feature_layout tokens_a (second_tokens tokens_b) max_seq_length)
    /\ len tokens_a + 2 + second_segment_length tokens_b <= max_seq_length.
Proof.
  intros Hmax.
  assert (Hfit : exists tokens_a tokens_b,
             truncated_tokens text_a text_b max_seq_length = Ok (tokens_a, tokens_b)
             /\ len tokens_a + 2 + second_segment_length tokens_b <= max_seq_length).
  { destruct (truthy_text text_b) as [text|] eqn:Hb.
    - destruct (truncated_tokens_paired text_a text_b text max_seq_length Hb Hmax)
        as [ta [tb [Hrun Hlen]]].
      exists ta, (Some tb). split; [exact Hrun|].
      pose proof (second_segment_length_bound tb). lia.
    - destruct (truncated_tokens_single text_a text_b max_seq_length Hb)
        as [kept [Hrun Hlen]]; [lia|].
      exists kept, None. split; [exact Hrun|].
      rewrite second_segment_length_tokens. cbn [second_tokens]. lia. }
  destruct Hfit as [ta [tb [Hrun Hfit]]].
  exists ta, tb. split; [exact Hrun|]. split; [|exact Hfit].
  unfold _text_pair_to_feature. rewrite Hrun. cbn [bind].
  now apply assemble_feature_layout.
Qed.
End FeatureProperties.

Lemma single_text_feature_below_two_witness :
  @_text_pair_to_feature whitespace_tokenizer "cat sat" (Some EmptyString) 1
  = Raise AssertionError.
Proof.
  apply (@single_text_feature_below_two whitespace_tokenizer "cat sat"
           (Some EmptyString) 1).
  - reflexivity.
  - lia.
Defined.

Lemma paired_feature_below_three_witness :
  @_text_pair_to_feature whitespace_tokenizer "cat sat" (Some "dog"%string) 2
  = Raise IndexError.
Proof.
  apply (@paired_feature_below_three whitespace_tokenizer "cat sat" "dog" 2).
  - discriminate.
  - lia.
Defined.

Lemma single_text_feature_layout_witness :
  @_text_pair_to_feature whitespace_tokenizer "the cat sat on the mat" None 5 =
    Ok (@single_text_feature whitespace_tokenizer "the cat sat on the mat" 5)
  /\ input_ids_of (@single_text_feature whitespace_tokenizer "the cat sat on the mat" 5) =
     @convert_tokens_to_ids whitespace_tokenizer
       ([CLS] ++ last_n (@tokenize whitespace_tokenizer "the cat sat on the mat") (5 - 2)
        ++ [SEP])
     ++ py_repeat 0 (5 - 2
                     - Z.min (len (@tokenize whitespace_tokenizer
                                     "the cat sat on the mat")) (5 - 2))
  /\ segment_ids_of (@single_text_feature whitespace_tokenizer "the cat sat on the mat" 5) =
     py_repeat 0 5
  /\ py_sum (input_mask_of
               (@single_text_feature whitespace_tokenizer "the cat sat on the mat" 5)) =
     Z.min (len (@tokenize whitespace_tokenizer "the cat sat on the mat")) (5 - 2) + 2.
Proof.
  apply (@single_text_feature_layout whitespace_tokenizer
           "the cat sat on the mat" None 5).
  - reflexivity.
  - lia.
Defined.

Section PairedFeatureProperties.
Context `{Tokenizer}.

(** X6: with two texts and [max_seq_length >= 3] the feature is laid out
    from the two lists the truncation loop leaves, which hold
    [min(len(a) + len(b), max_seq_length - 3)] tokens.  When the second
    list is left with a token, the feature has three special tokens and
    the segment id 1 on the second list and its [SEP]; when it is left
    empty, the feature has the first list only, with two special tokens
    and no segment id 1. *)
Theorem paired_feature_layout (text_a text_b : string) (max_seq_length : Z) :
  text_b <> EmptyString ->
  3 <= max_seq_length ->
  exists tokens_a tokens_b,
    _truncate_seq_pair (tokenize text_a) (tokenize text_b) (max_seq_length - 3)
      = Ok (tokens_a, tokens_b)
    /\ len tokens_a + len tokens_b =
       Z.min (len (tokenize text_a) + len (tokenize text_b)) (max_seq_length - 3)
    /\ _text_pair_to_feature text_a (Some text_b) max_seq_length =
       Ok (feature_layout tokens_a tokens_b max_seq_length)
    /\ py_sum (input_mask_of (feature_layout tokens_a tokens_b max_seq_length)) =
       len tokens_a + len tokens_b + match tokens_b with [] => 2 | _ => 3 end
    /\ py_sum (segment_ids_of (feature_layout tokens_a tokens_b max_seq_length)) =
       match tokens_b with [] => 0 | _ => len tokens_b + 1 end.
Proof.
  intros Hb Hmax.
  assert (Hbudget : 0 <= max_seq_length - 3) by lia.
  destruct (truncate_seq_pair_spec (tokenize text_a) (tokenize text_b)
              (max_seq_length - 3) Hbudget) as [[ta tb] [Hrun Hspec]].
  pose proof (spec_truncation_total _ _ _ Hbudget Hspec) as Htotal.
  unfold total_length in Htotal. cbn [fst snd] in Htotal.
  pose proof (len_nonneg ta) as Hta. pose proof (len_nonneg tb) as Htb.
  exists ta, tb. split; [exact Hrun|]. split; [exact Htotal|].
  split; [|split].
  - unfold _text_pair_to_feature.
    rewrite truncated_tokens_pair by assumption.
    rewrite Hrun. cbn [bind fst snd].
    rewrite assemble_feature_layout; [reflexivity|].
    pose proof (second_segment_length_bound tb). lia.
  - unfold feature_layout, input_mask_of. cbn [snd].
    rewrite py_sum_mask. destruct tb as [|y tb']; pylen; lia.
  - unfold feature_layout, segment_ids_of. cbn [fst snd].
    rewrite !py_sum_app. unfold py_repeat. rewrite !py_sum_repeat.
    destruct tb as [|y tb']; pylen; lia.
Qed.

(** X7: for [max_seq_length >= 3], with or without a second text, the
    mask of the feature is a run of [k] ones followed by zeros, with
    [2 <= k <= max_seq_length], and from position [k] on the ids and the
    segment ids are zero too: the padding is on the right, and a feature
    is never all padding. *)
Theorem feature_padding_invariant (text_a : string) (text_b : option string)
    (max_seq_length : Z) :
  3 <= max_seq_length ->
  exists f k,
    _text_pair_to_feature text_a text_b max_seq_length = Ok f
    /\ 2 <= k <= max_seq_length
    /\ input_mask_of f = py_repeat 1 k ++ py_repeat 0 (max_seq_length - k)
    /\ skipn (Z.to_nat k) (input_ids_of f) = py_repeat 0 (max_seq_length - k)
    /\ skipn (Z.to_nat k) (segment_ids_of f) = py_repeat 0 (max_seq_length - k).
Proof.
  intros Hmax.
  destruct (text_pair_feature_layout text_a text_b max_seq_length Hmax)
    as [ta [tb [_ [Hrun Hfit]]]].
  rewrite second_segment_length_tokens in Hfit.
  pose proof (len_nonneg ta) as Hta.
  pose proof (len_nonneg (second_tokens tb)) as Htb.
  eexists.
  exists (len ta + 2
          + match second_tokens tb with [] => 0 | _ => len (second_tokens tb) + 1 end).
  split; [exact Hrun|]. split; [destruct (second_tokens tb); lia|].
  unfold feature_layout, input_mask_of, input_ids_of, segment_ids_of.
  cbn [fst snd]. split; [reflexivity|]. split.
  - apply skipn_len_app. unfold convert_tokens_to_ids.
    destruct (second_tokens tb); pylen; lia.
  - rewrite app_assoc. apply skipn_len_app.
    destruct (second_tokens tb); pylen; lia.
Qed.
End PairedFeatureProperties.

Lemma paired_feature_layout_witness :
  exists tokens_a tokens_b,
    _truncate_seq_pair (@tokenize whitespace_tokenizer "cat sat on the mat")
      (@tokenize whitespace_tokenizer "dog ran") (8 - 3) = Ok (tokens_a, tokens_b)
    /\ len tokens_a + len tokens_b =
       Z.min (len (@tokenize whitespace_tokenizer "cat sat on the mat")
              + len (@tokenize whitespace_tokenizer "dog ran")) (8 - 3)
    /\ @_text_pair_to_feature whitespace_tokenizer "cat sat on the mat"
         (Some "dog ran"%string) 8 =
       Ok (@feature_layout whitespace_tokenizer tokens_a tokens_b 8)
    /\ py_sum (input_mask_of (@feature_layout whitespace_tokenizer tokens_a tokens_b 8)) =
       len tokens_a + len tokens_b + match tokens_b with [] => 2 | _ => 3 end
    /\ py_sum (segment_ids_of (@feature_layout whitespace_tokenizer tokens_a tokens_b 8)) =
       match tokens_b with [] => 0 | _ => len tokens_b + 1 end.
Proof.
  apply (@paired_feature_layout whitespace_tokenizer "cat sat on the mat" "dog ran" 8).
  - discriminate.
  - lia.
Defined.

Lemma feature_padding_invariant_witness :
  exists f k,
    @_text_pair_to_feature whitespace_tokenizer "cat sat" (Some "dog"%string) 8 = Ok f
    /\ 2 <= k <= 8
    /\ input_mask_of f = py_repeat 1 k ++ py_repeat 0 (8 - k)
    /\ skipn (Z.to_nat k) (input_ids_of f) = py_repeat 0 (8 - k)
    /\ skipn (Z.to_nat k) (segment_ids_of f) = py_repeat 0 (8 - k).
Proof.
  apply (@feature_padding_invariant whitespace_tokenizer "cat sat"
           (Some "dog"%string) 8).
  lia.
Defined.

(** ** The dataset: construction and indexing *)

Lemma py_index_range {A : Type} (l : list A) (i : Z) (x : A) :
  py_index l i = Ok x -> - len l <= i < len l.
Proof.
  unfold py_index.
  destruct (i <? 0) eqn:Ei; [apply Z.ltb_lt in Ei|apply Z.ltb_ge in Ei].
  - destruct (i + len l <? 0) eqn:Ej; [discriminate|]. apply Z.ltb_ge in Ej.
    intros _. lia.
  - destruct (i <? 0) eqn:Ej; [discriminate|].
    destruct (nth_error l (Z.to_nat i)) as [y|] eqn:En; [|discriminate].
    intros _. assert (Hlt : (Z.to_nat i < length l)%nat)
      by (apply nth_error_Some; congruence).
    unfold len. lia.
Qed.

Lemma py_index_out_of_range {A : Type} (l : list A) (i : Z) :
  i < - len l \/ len l <= i -> py_index l i = Raise IndexError.
Proof.
  intros Hi. unfold py_index. pose proof (len_nonneg l) as Hl.
  destruct (i <? 0) eqn:Ei; [apply Z.ltb_lt in Ei|apply Z.ltb_ge in Ei].
  - destruct (i + len l <? 0) eqn:Ej; [reflexivity|]. apply Z.ltb_ge in Ej. lia.
  - destruct (i <? 0) eqn:Ej; [reflexivity|].
    destruct (nth_error l (Z.to_nat i)) as [y|] eqn:En; [|reflexivity].
    assert (Hlt : (Z.to_nat i < length l)%nat)
      by (apply nth_error_Some; congruence).
    unfold len in Hi. lia.
Qed.

Lemma py_index_wrap {A : Type} (l : list A) (i : Z) :
  0 <= i < len l -> py_index l (i - len l) = py_index l i.
Proof.
  intros Hi. unfold py_index.
  destruct (i - len l <? 0) eqn:E1; [|apply Z.ltb_ge in E1; lia].
  destruct (i <? 0) eqn:E2; [apply Z.ltb_lt in E2; lia|].
  replace (i - len l + len l) with i by lia. now rewrite E2.
Qed.

(** The number of labels the constructor reads: the labels given, or one
    placeholder per first text when none is given. *)
Lemma init_eq (ta tb tc : list string) (labels : option (list pylabel)) :
  exists used : list pylabel,
    (used = match labels with
            | Some (l :: ls) => l :: ls
            | _ => repeat None (length ta)
            end)
    /\ __init__ ta tb tc labels =
       bind (py_assert ((len used =? len ta) && ((len used =? len tb)
                         && ((len used =? len tc) && true))))
            (fun _ => Ok {| text_a_list := ta; text_b_list := tb;
                            text_c_list := tc;
                            label_list := map numeric_label used |}).
Proof.
  eexists. split; [reflexivity|].
  unfold __init__. destruct labels as [[|l ls]|]; reflexivity.
Qed.

(** X8: the constructor checks the lengths and nothing else.  With [n]
    the number of labels given ([len(text_a_list)] when no label is given),
    it returns a dataset of [n] examples holding the three text lists when
    each of them has [n] entries, and raises [AssertionError] otherwise. *)
Theorem init_checks_lengths (ta tb tc : list string) (labels : option (list pylabel)) :
  let n := match labels with
           | Some (l :: ls) => length (l :: ls)
           | _ => length ta
           end in
  (length ta = n /\ length tb = n /\ length tc = n ->
   exists ds,
     __init__ ta tb tc labels = Ok ds
     /\ text_a_list ds = ta /\ text_b_list ds = tb /\ text_c_list ds = tc
     /\ length (label_list ds) = n /\ __len__ ds = Z.of_nat n)
  /\ (~ (length ta = n /\ length tb = n /\ length tc = n) ->
      __init__ ta tb tc labels = Raise AssertionError).
Proof.
  intros n. destruct (init_eq ta tb tc labels) as [used [Hused Hinit]].
  assert (Hn : length used = n).
  { subst used n. destruct labels as [[|l ls]|]; try apply repeat_length.
    reflexivity. }
  rewrite Hinit. unfold len. rewrite Hn. split.
  - intros [Ha [Hb Hc]]. rewrite Ha, Hb, Hc, !Z.eqb_refl. cbn [andb py_assert bind].
    eexists. repeat split; cbn [label_list]; unfold __len__, len;
      cbn [label_list]; now rewrite length_map, Hn.
  - intros Hno.
    destruct (Z.of_nat n =? Z.of_nat (length ta)) eqn:Ea;
      [apply Z.eqb_eq in Ea|reflexivity].
    destruct (Z.of_nat n =? Z.of_nat (length tb)) eqn:Eb;
      [apply Z.eqb_eq in Eb|reflexivity].
    destruct (Z.of_nat n =? Z.of_nat (length tc)) eqn:Ec;
      [apply Z.eqb_eq in Ec|reflexivity].
    exfalso. apply Hno. lia.
Qed.

Lemma init_checks_lengths_witness :
  (exists ds,
      __init__ ["a1"; "a2"]%string ["b1"; "b2"]%string ["c1"; "c2"]%string None = Ok ds
      /\ text_a_list ds = ["a1"; "a2"]%string /\ text_b_list ds = ["b1"; "b2"]%string
      /\ text_c_list ds = ["c1"; "c2"]%string
      /\ length (label_list ds) = 2%nat /\ __len__ ds = 2)
  /\ __init__ ["a1"; "a2"]%string ["b1"]%string ["c1"; "c2"]%string
       (Some [Some "B"; Some "C"]%string) = Raise AssertionError.
Proof.
  split.
  - apply (proj1 (init_checks_lengths ["a1"; "a2"]%string ["b1"; "b2"]%string
                    ["c1"; "c2"]%string None)).
    repeat split.
  - apply (proj2 (init_checks_lengths ["a1"; "a2"]%string ["b1"]%string
                    ["c1"; "c2"]%string (Some [Some "B"; Some "C"]%string))).
    intros [_ [Hb _]]. discriminate Hb.
Defined.

(** The four lists of a constructed dataset have one length. *)
Lemma init_ok_lengths (ta tb tc : list string) (labels : option (list pylabel))
    (ds : TripletTextDataset) :
  __init__ ta tb tc labels = Ok ds ->
  len (text_a_list ds) = __len__ ds /\ len (text_b_list ds) = __len__ ds
  /\ len (text_c_list ds) = __len__ ds.
Proof.
  intros Hinit. destruct (init_eq ta tb tc labels) as [used [_ Heq]].
  rewrite Heq in Hinit.
  destruct (len used =? len ta) eqn:Ea; [|discriminate].
  destruct (len used =? len tb) eqn:Eb; [|discriminate].
  destruct (len used =? len tc) eqn:Ec; [|discriminate].
  cbn [andb py_assert bind] in Hinit. injection Hinit as <-.
  apply Z.eqb_eq in Ea, Eb, Ec.
  unfold __len__. cbn [text_a_list text_b_list text_c_list label_list].
  rewrite len_map. lia.
Qed.

(** X9: the label mapping is total.  Whatever the labels are, the
    constructor raises nothing on them, and [get(index)] returns 0 when the
    label given at that index is exactly ["B"] and 1 for every other value:
    ["C"], another string, or a missing value. *)
Theorem label_mapping_total (ta tb tc : list string) (labels : list pylabel)
    (index : Z) (label : pylabel) :
  length ta = length labels ->
  length tb = length labels ->
  length tc = length labels ->
  py_index labels index = Ok label ->
  exists ds text_a text_b text_c numeric,
    __init__ ta tb tc (Some labels) = Ok ds
    /\ __getitem__ ds index = Ok (text_a, text_b, text_c, numeric)
    /\ (numeric = 0 \/ numeric = 1)
    /\ (numeric = 0 <-> label = Some "B"%string).
Proof.
  intros Ha Hb Hc Hl.
  rewrite (init_with_labels ta tb tc labels Ha Hb Hc).
  pose proof (py_index_range _ _ _ Hl) as Hi.
  destruct (getitem_ok ta tb tc (map numeric_label labels) index)
    as [a [b [c [n [_ [_ [_ [En Hget]]]]]]]];
    rewrite ?length_map, ?len_map; try assumption.
  rewrite py_index_map, Hl in En. cbn [bind] in En. injection En as <-.
  eexists; exists a, b, c, (numeric_label label).
  split; [reflexivity|]. split; [exact Hget|].
  unfold numeric_label, label_is_B.
  destruct label as [s|]; [|split; [now right|split; discriminate]].
  destruct (String.eqb_spec s "B") as [->|Hne].
  - split; [now left|]. split; reflexivity.
  - split; [now right|]. split; [discriminate|congruence].
Qed.

Lemma label_mapping_total_witness :
  exists ds text_a text_b text_c numeric,
    __init__ ["a1"; "a2"]%string ["b1"; "b2"]%string ["c1"; "c2"]%string
      (Some [Some "B"; Some "b"]%string) = Ok ds
    /\ __getitem__ ds 1 = Ok (text_a, text_b, text_c, numeric)
    /\ (numeric = 0 \/ numeric = 1)
    /\ (numeric = 0 <-> Some "b"%string = Some "B"%string).
Proof.
  apply (label_mapping_total ["a1"; "a2"]%string ["b1"; "b2"]%string
           ["c1"; "c2"]%string [Some "B"; Some "b"]%string 1 (Some "b"%string));
    reflexivity.
Defined.

(** X10: on a constructed dataset, an index outside
    [-len(dataset) .. len(dataset) - 1] raises [IndexError]. *)
Theorem getitem_out_of_range (ta tb tc : list string) (labels : option (list pylabel))
    (ds : TripletTextDataset) (index : Z) :
  __init__ ta tb tc labels = Ok ds ->
  index < - __len__ ds \/ __len__ ds <= index ->
  __getitem__ ds index = Raise IndexError.
Proof.
  intros Hinit Hi. destruct (init_ok_lengths _ _ _ _ _ Hinit) as [Ha _].
  unfold __getitem__. rewrite py_index_out_of_range; [reflexivity|].
  now rewrite Ha.
Qed.

Lemma getitem_out_of_range_witness :
  __getitem__ {| text_a_list := ["a"]%string; text_b_list := ["b"]%string;
                 text_c_list := ["c"]%string; label_list := [1] |} 1
  = Raise IndexError.
Proof.
  apply (getitem_out_of_range ["a"]%string ["b"]%string ["c"]%string None).
  - reflexivity.
  - right. unfold __len__, len. simpl. lia.
Defined.

(** X11: on a constructed dataset of [n] examples, the index [i - n]
    reads the same example as the index [i], for [0 <= i < n]: negative
    indices count from the end. *)
Theorem getitem_negative_index (ta tb tc : list string)
    (labels : option (list pylabel)) (ds : TripletTextDataset) (index : Z) :
  __init__ ta tb tc labels = Ok ds ->
  0 <= index < __len__ ds ->
  __getitem__ ds (index - __len__ ds) = __getitem__ ds index.
Proof.
  intros Hinit Hi. destruct (init_ok_lengths _ _ _ _ _ Hinit) as [Ha [Hb Hc]].
  assert (Hwrap : forall (A : Type) (l : list A),
             len l = __len__ ds ->
             py_index l (index - __len__ ds) = py_index l index).
  { intros A l Hl. rewrite <- Hl. apply py_index_wrap. now rewrite Hl. }
  unfold __getitem__.
  rewrite (Hwrap _ _ Ha), (Hwrap _ _ Hb), (Hwrap _ _ Hc), (Hwrap _ _ eq_refl).
  reflexivity.
Qed.

Lemma getitem_negative_index_witness :
  let ds := {| text_a_list := ["a1"; "a2"]%string; text_b_list := ["b1"; "b2"]%string;
               text_c_list := ["c1"; "c2"]%string; label_list := [0; 1] |} in
  __getitem__ ds (1 - __len__ ds) = __getitem__ ds 1.
Proof.
  apply (getitem_negative_index ["a1"; "a2"]%string ["b1"; "b2"]%string
           ["c1"; "c2"]%string (Some [Some "B"; Some "C"]%string)).
  - reflexivity.
  - unfold __len__, len. simpl. lia.
Defined.

(** ** The dataset: from records *)

Lemma texts_default_label (df : DataFrame) (col : Row -> string) :
  col = col_A \/ col = col_B \/ col = col_C ->
  map col (rows (default_label df)) = map col (rows df).
Proof.
  intros Hcol. unfold default_label. destruct (has_label df); [reflexivity|].
  cbn [negb set_label rows]. rewrite map_map.
  destruct Hcol as [-> | [-> | ->]]; reflexivity.
Qed.

Lemma labels_of_default_label (df : DataFrame) :
  map col_label (rows (default_label df)) =
  if has_label df then map col_label (rows df)
  else map (fun _ => Some "B"%string) (rows df).
Proof.
  unfold default_label. destruct (has_label df); [reflexivity|].
  cbn [negb set_label rows]. now rewrite map_map.
Qed.

(** The label the dataset reads for a record: the label of the record
    when some record of the list has one (a record without one then has a
    missing value, which is not ["B"]), and ["B"] when none has. *)
Lemma from_dict_list_eq (sample : list Row -> list Row) (data : list record) :
  data <> [] ->
  from_dict_list sample data false =
  Ok {| text_a_list := map rec_A data;
        text_b_list := map rec_B data;
        text_c_list := map rec_C data;
        label_list :=
          map (fun r => if existsb has_label_key data
                        then numeric_label (rec_label r) else 0) data |}.
Proof.
  intros Hne. unfold from_dict_list. cbn [bind].
  set (df := DataFrame_of_records data).
  assert (Ht : has_texts df = true)
    by (subst df; destruct data; [contradiction|reflexivity]).
  rewrite from_dataframe_eq by now rewrite has_texts_default_label.
  rewrite default_label_idempotent.
  rewrite !texts_default_label by auto.
  rewrite labels_of_default_label.
  subst df. cbn [DataFrame_of_records has_label rows]. rewrite !map_map.
  cbn [col_A col_B col_C col_label].
  rewrite init_with_labels
    by (destruct (existsb has_label_key data); now rewrite !length_map).
  do 2 f_equal.
  destruct (existsb has_label_key data); rewrite map_map; reflexivity.
Qed.

(** X12: a dataset built from a list of records, without augmentation,
    gives back at every index the three texts of the record at that index.
    Its numeric label is 0 when no record of the list has a label; when
    some record has one, it is 0 for the label ["B"] and 1 otherwise, also
    for a record that has no label of its own. *)
Theorem from_dict_list_getitem (sample : list Row -> list Row)
    (data : list record) (index : Z) (r : record) :
  py_index data index = Ok r ->
  exists ds,
    from_dict_list sample data false = Ok ds
    /\ __len__ ds = len data
    /\ __getitem__ ds index =
       Ok (rec_A r, rec_B r, rec_C r,
           if existsb has_label_key data then numeric_label (rec_label r) else 0).
Proof.
  intros Hr.
  assert (Hne : data <> [])
    by (intros ->; apply py_index_In in Hr; destruct Hr).
  rewrite (from_dict_list_eq sample data Hne).
  eexists. split; [reflexivity|]. split.
  - unfold __len__. cbn [label_list]. apply len_map.
  - unfold __getitem__. cbn [text_a_list text_b_list text_c_list label_list].
    rewrite !py_index_map, Hr. reflexivity.
Qed.

Lemma from_dict_list_getitem_witness :
  exists ds,
    from_dict_list (fun l => l) records_partly_labelled false = Ok ds
    /\ __len__ ds = len records_partly_labelled
    /\ __getitem__ ds 1 =
       Ok ("a2"%string, "b2"%string, "c2"%string,
           if existsb has_label_key records_partly_labelled
           then numeric_label None else 0).
Proof.
  apply (from_dict_list_getitem (fun l => l) records_partly_labelled 1
           {| rec_A := "a2"; rec_B := "b2"; rec_C := "c2"; rec_label := None |}).
  reflexivity.
Defined.

(** X13: a frame without the text columns cannot be read: [from_dataframe]
    and [augment] raise [KeyError] on it, and so does [from_dict_list] on
    an empty list of records, with and without augmentation, since the frame
    of no record has no column. *)
Theorem missing_text_columns_raise (sample : list Row -> list Row)
    (df : DataFrame) (use_augment : bool) :
  has_texts df = false ->
  from_dataframe df = Raise KeyError
  /\ augment sample df = Raise KeyError
  /\ from_dict_list sample [] use_augment = Raise KeyError.
Proof.
  intros Ht. split; [|split].
  - unfold from_dataframe, text_column. now rewrite Ht.
  - unfold augment, permuted_copy. now rewrite Ht.
  - now destruct use_augment.
Qed.

Lemma missing_text_columns_raise_witness :
  from_dataframe {| has_texts := false; has_label := true; rows := [] |}
    = Raise KeyError
  /\ augment (fun l => l) {| has_texts := false; has_label := true; rows := [] |}
     = Raise KeyError
  /\ from_dict_list (fun l => l) [] true = Raise KeyError.
Proof.
  apply (missing_text_columns_raise (fun l => l)
           {| has_texts := false; has_label := true; rows := [] |} true).
  reflexivity.
Defined.

(** ** Augmentation: the rows of the result *)

Lemma permuted_copy_In (df : DataFrame) (a b c : Row -> string) (label : string)
    (r' : Row) :
  In r' (map (fun r => {| col_A := a r; col_B := b r; col_C := c r;
                          col_label := Some label |}) (rows df))
  <-> exists r, In r (rows df)
                /\ r' = {| col_A := a r; col_B := b r; col_C := c r;
                           col_label := Some label |}.
Proof.
  rewrite in_map_iff. split; intros [r [H1 H2]]; exists r; now split.
Qed.

Section AugmentRows.
Variable sample : list Row -> list Row.
Hypothesis sample_permutes : forall l : list Row, Permutation l (sample l).

Lemma augment_rows (df : DataFrame) :
  has_texts df = true ->
  exists out,
    augment sample df = Ok out
    /\ forall r', In r' (rows out) <->
         In r' (rows_in_concat df)
         \/ exists r, In r (rows df) /\ In r' (derived_rows r).
Proof.
  intros Ht. unfold augment, permuted_copy. rewrite Ht. cbn [bind].
  eexists. split; [reflexivity|]. cbn [rows]. intros r'.
  assert (Hperm : forall l, In r' (sample l) <-> In r' l).
  { intros l. split; apply Permutation_in;
      [apply Permutation_sym|]; apply sample_permutes. }
  rewrite Hperm, drop_duplicates_In, !in_app_iff, !permuted_copy_In.
  unfold derived_rows. cbn [In].
  split.
  - intros [Horig | [[r [Hin ->]] | [[r [Hin ->]] | [[r [Hin ->]]
             | [[r [Hin ->]] | [r [Hin ->]]]]]]];
      [now left| right; exists r; split; [exact Hin|] ..]; tauto.
  - intros [Horig | [r [Hin [<- | [<- | [<- | [<- | [<- | []]]]]]]]];
      [now left| | | | | ].
    + right; left. now exists r.
    + right; right; left. now exists r.
    + right; right; right; left. now exists r.
    + right; right; right; right; left. now exists r.
    + right; right; right; right; right. now exists r.
Qed.

Lemma augment_rows_NoDup (df : DataFrame) (out : DataFrame) :
  augment sample df = Ok out -> NoDup (rows out).
Proof.
  unfold augment, permuted_copy. destruct (has_texts df); [|discriminate].
  cbn [bind]. intros Hrun. injection Hrun as <-. cbn [rows].
  eapply Permutation_NoDup; [apply sample_permutes|].
  apply drop_duplicates_NoDup.
Qed.

(** X14: the rows of the augmented frame are the rows of the input and
    the five rows derived from each of them, and no other row, and no row
    is there twice. *)
Theorem augment_rows_are_the_variants (df : DataFrame) :
  has_texts df = true ->
  has_label df = true ->
  exists out,
    augment sample df = Ok out
    /\ NoDup (rows out)
    /\ forall r', In r' (rows out) <->
         In r' (rows df)
         \/ exists r, In r (rows df) /\ In r' (derived_rows r).
Proof.
  intros Ht Hl. destruct (augment_rows df Ht) as [out [Hrun Hrows]].
  exists out. split; [exact Hrun|]. split; [exact (augment_rows_NoDup df out Hrun)|].
  unfold rows_in_concat in Hrows. now rewrite Hl in Hrows.
Qed.

(** X15: the derived rows are labelled as if the second text of the
    input row were the right one, whatever the label of the row says.  For
    a row labelled ["C"] whose two candidates differ, the result holds the
    row and the row with the candidates exchanged, both labelled ["C"]:
    two examples that contradict each other. *)
Theorem augment_ignores_input_label (df : DataFrame) (r : Row) :
  has_texts df = true ->
  has_label df = true ->
  In r (rows df) ->
  col_label r = Some "C"%string ->
  col_B r <> col_C r ->
  exists out r1 r2,
    augment sample df = Ok out
    /\ In r1 (rows out) /\ In r2 (rows out)
    /\ col_A r1 = col_A r2
    /\ col_B r1 = col_C r2 /\ col_C r1 = col_B r2
    /\ col_B r1 <> col_C r1
    /\ col_label r1 = Some "C"%string /\ col_label r2 = Some "C"%string.
Proof.
  intros Ht Hl Hin Hlabel Hne.
  destruct (augment_rows df Ht) as [out [Hrun Hrows]].
  exists out, r,
    {| col_A := col_A r; col_B := col_C r; col_C := col_B r;
       col_label := Some "C"%string |}.
  split; [exact Hrun|]. split; [|split].
  - apply Hrows. left. unfold rows_in_concat. now rewrite Hl.
  - apply Hrows. right. exists r. split; [exact Hin|]. now left.
  - cbn [col_A col_B col_C col_label]. now repeat split.
Qed.
End AugmentRows.

Lemma augment_rows_are_the_variants_witness :
  exists out,
    augment (fun l => l) frame_labelled_C = Ok out
    /\ NoDup (rows out)
    /\ forall r', In r' (rows out) <->
         In r' (rows frame_labelled_C)
         \/ exists r, In r (rows frame_labelled_C) /\ In r' (derived_rows r).
Proof.
  apply (augment_rows_are_the_variants (fun l => l)).
  - intros l. apply Permutation_refl.
  - reflexivity.
  - reflexivity.
Defined.

Lemma augment_ignores_input_label_witness :
  exists out r1 r2,
    augment (fun l => l) frame_labelled_C = Ok out
    /\ In r1 (rows out) /\ In r2 (rows out)
    /\ col_A r1 = col_A r2
    /\ col_B r1 = col_C r2 /\ col_C r1 = col_B r2
    /\ col_B r1 <> col_C r1
    /\ col_label r1 = Some "C"%string /\ col_label r2 = Some "C"%string.
Proof.
  apply (augment_ignores_input_label (fun l => l)
           (fun l => Permutation_refl l) frame_labelled_C
           {| col_A := "a"; col_B := "b"; col_C := "c";
              col_label := Some "C"%string |}).
  - reflexivity.
  - reflexivity.
  - left. reflexivity.
  - reflexivity.
  - discriminate.
Defined.

(** ** The collator *)

Lemma map_result_map {A B : Type} (f : A -> result B) (g : A -> B) (l : list A) :
  (forall x, In x l -> f x = Ok (g x)) -> map_result f l = Ok (map g l).
Proof.
  induction l as [|x l IH]; intros Hf; [reflexivity|].
  cbn [map_result map].
  rewrite (Hf x (or_introl eq_refl)), IH by (intros y Hy; apply Hf; now right).
  reflexivity.
Qed.

(** A list of integers of 64 bits makes a tensor. *)
Lemma LongTensor_int64 (l : list Z) :
  forallb is_int64 l = true -> LongTensor l = Ok (tensor_of_list l).
Proof. intros Hl. unfold LongTensor. now rewrite Hl. Qed.

Lemma is_int64_small (z : Z) : 0 <= z < 30522 -> is_int64 z = true.
Proof.
  intros Hz. unfold is_int64. apply andb_true_intro. split; apply Z.leb_le; lia.
Qed.

Lemma forallb_py_repeat (x n : Z) :
  is_int64 x = true -> forallb is_int64 (py_repeat x n) = true.
Proof.
  intros Hx. unfold py_repeat. apply forallb_forall. intros y Hy.
  apply repeat_spec in Hy. now subst.
Qed.

Lemma stack_rows (rows : list (list Z)) (width : nat) :
  rows <> [] ->
  Forall (fun row => length row = width) rows ->
  stack (map tensor_of_list rows) = Ok (stacked rows width).
Proof.
  intros Hne Hall. destruct rows as [|row0 rest]; [contradiction|].
  unfold stack. cbn [map].
  assert (Hcheck : forallb (fun t' => Data.shape_eqb (shape t') (shape (tensor_of_list row0)))
                     (tensor_of_list row0 :: map tensor_of_list rest) = true).
  { apply forallb_forall. intros t Hin.
    change (tensor_of_list row0 :: map tensor_of_list rest)
      with (map tensor_of_list (row0 :: rest)) in Hin.
    apply in_map_iff in Hin. destruct Hin as [row [<- Hin]].
    rewrite Forall_forall in Hall. cbn [tensor_of_list shape].
    rewrite (Hall row Hin), (Hall row0 (or_introl eq_refl)).
    unfold Data.shape_eqb. now destruct (list_eq_dec Nat.eq_dec [width] [width]). }
  rewrite Hcheck. unfold stacked. f_equal. f_equal.
  - cbn [length tensor_of_list shape]. rewrite length_map.
    rewrite Forall_forall in Hall. now rewrite (Hall row0 (or_introl eq_refl)).
  - change (tensor_of_list row0 :: map tensor_of_list rest)
      with (map tensor_of_list (row0 :: rest)).
    rewrite map_map. cbn [tensor_of_list data]. now rewrite map_id.
Qed.

(** The tensors of a feature whose entries fit in 64 bits.  The
    constructor takes the second component of the tuple, the segment ids,
    for its [input_mask] and the third, the mask, for its [segment_ids], and
    [to_tensor] returns the field [segment_ids] before the field
    [input_mask]: the mask comes second. *)
Lemma to_tensor_of_feature (f : feature) :
  forallb is_int64 (fst (fst f)) = true ->
  forallb is_int64 (snd (fst f)) = true ->
  forallb is_int64 (snd f) = true ->
  to_tensor (InputFeatures_of_tuple f) = Ok (feature_tensors f).
Proof.
  destruct f as [[ids seg] mask]. cbn [fst snd]. intros Hids Hseg Hmask.
  unfold to_tensor, InputFeatures_of_tuple, feature_tensors.
  cbn [input_ids segment_ids input_mask fst snd].
  now rewrite !LongTensor_int64 by assumption.
Qed.

Lemma default_collate_triple_features (features : list feature) (width : nat) :
  features <> [] ->
  Forall (fun f : feature => length (fst (fst f)) = width
                             /\ length (snd (fst f)) = width
                             /\ length (snd f) = width) features ->
  default_collate_triple (map feature_tensors features)
  = Ok (stacked_features features width).
Proof.
  intros Hne Hall. unfold default_collate_triple, stacked_features.
  rewrite !map_map.
  assert (Hrows : forall (g : feature -> list Z),
             (forall f, In f features -> length (g f) = width) ->
             stack (map (fun f => tensor_of_list (g f)) features)
             = Ok (stacked (map g features) width)).
  { intros g Hg. rewrite <- (map_map g tensor_of_list). apply stack_rows.
    - destruct features; [contradiction|discriminate].
    - apply Forall_map, Forall_forall. exact Hg. }
  rewrite Forall_forall in Hall. unfold feature_tensors. cbn [fst snd].
  rewrite (Hrows (fun f => fst (fst f))) by (intros f Hin; apply (Hall f Hin)).
  cbn [bind].
  rewrite (Hrows (fun f => snd f)) by (intros f Hin; apply (Hall f Hin)).
  cbn [bind].
  rewrite (Hrows (fun f => snd (fst f))) by (intros f Hin; apply (Hall f Hin)).
  reflexivity.
Qed.

Lemma default_collate_nonempty (batch : list example_tensors) :
  batch <> [] ->
  default_collate batch =
  (a <- default_collate_triple
          (map (fun e : example_tensors => fst (fst (fst e))) batch) ;;
   b <- default_collate_triple
          (map (fun e : example_tensors => snd (fst (fst e))) batch) ;;
   c <- default_collate_triple
          (map (fun e : example_tensors => snd (fst e)) batch) ;;
   label <- stack (map (fun e : example_tensors => snd e) batch) ;;
   Ok (a, b, c, label)).
Proof. intros Hne. destruct batch; [contradiction|reflexivity]. Qed.

Section SingleTextFeature.
Context `{Tokenizer}.

Lemma single_text_feature_below_two_aux (text : string) (max_len : Z) :
  max_len < 2 ->
  _text_pair_to_feature text None max_len = Raise AssertionError.
Proof.
  intros Hmax. unfold _text_pair_to_feature.
  rewrite (truncated_tokens_last_n text None max_len eq_refl). cbn [bind].
  assert (Hnone : last_n (tokenize text) (max_len - 2) = []).
  { unfold last_n. apply skipn_all2. unfold len. lia. }
  rewrite Hnone. unfold assemble_feature. cbn [truthy_tokens]. cbv beta iota zeta.
  replace (len _ =? max_len) with false; [reflexivity|].
  symmetry. apply Z.eqb_neq. unfold convert_tokens_to_ids. pylen. lia.
Qed.

Lemma single_text_feature_run (text : string) (max_len : Z) :
  2 <= max_len ->
  _text_pair_to_feature text None max_len = Ok (single_text_feature text max_len).
Proof.
  intros Hmax. unfold _text_pair_to_feature.
  rewrite (truncated_tokens_last_n text None max_len eq_refl). cbn [bind].
  rewrite assemble_feature_layout; [reflexivity|].
  rewrite second_segment_length_tokens. cbn [second_tokens].
  pose proof (len_nonneg (tokenize text)).
  rewrite len_last_n by lia. lia.
Qed.

Lemma single_text_feature_lengths (text : string) (max_len : Z) :
  2 <= max_len ->
  let f := single_text_feature text max_len in
  length (fst (fst f)) = Z.to_nat max_len
  /\ length (snd (fst f)) = Z.to_nat max_len
  /\ length (snd f) = Z.to_nat max_len.
Proof.
  intros Hmax f. subst f. unfold single_text_feature, feature_layout.
  cbn [fst snd].
  pose proof (len_nonneg (tokenize text)) as Hlen.
  assert (Hkept : len (last_n (tokenize text) (max_len - 2))
                  = Z.min (len (tokenize text)) (max_len - 2))
    by (apply len_last_n; lia).
  assert (Hn : forall l : list Z, len l = max_len -> length l = Z.to_nat max_len)
    by (intros l <-; unfold len; lia).
  repeat split; apply Hn; unfold convert_tokens_to_ids; pylen; lia.
Qed.

(** The entries of a feature are ids, zeros and ones. *)
Lemma single_text_feature_int64 (text : string) (max_len : Z) :
  int64_ids ->
  let f := single_text_feature text max_len in
  forallb is_int64 (fst (fst f)) = true
  /\ forallb is_int64 (snd (fst f)) = true
  /\ forallb is_int64 (snd f) = true.
Proof.
  intros Hids f. subst f. unfold single_text_feature, feature_layout.
  cbn [fst snd]. rewrite !forallb_app.
  rewrite !forallb_py_repeat by reflexivity.
  repeat split; try reflexivity.
  rewrite andb_true_r. unfold convert_tokens_to_ids.
  apply forallb_forall. intros z Hz. apply in_map_iff in Hz.
  destruct Hz as [t [<- _]]. apply Hids.
Qed.

(** The tensors of one item of a batch. *)
Lemma example_to_tensors_eq (max_len : Z) (x : string * string * string * Z) :
  int64_ids ->
  is_int64 (item_label x) = true ->
  2 <= max_len ->
  example_to_tensors max_len x =
  Ok (feature_tensors (single_text_feature (item_text_a x) max_len),
      feature_tensors (single_text_feature (item_text_b x) max_len),
      feature_tensors (single_text_feature (item_text_c x) max_len),
      tensor_of_list [item_label x]).
Proof.
  intros Hids Hlabel Hmax. destruct x as [[[text_a text_b] text_c] label].
  unfold item_label in Hlabel. cbn [snd] in Hlabel.
  unfold example_to_tensors, to_two_pair_feature.
  rewrite !single_text_feature_run by assumption. cbn [bind].
  assert (Ht : forall text,
             to_tensor (InputFeatures_of_tuple (single_text_feature text max_len))
             = Ok (feature_tensors (single_text_feature text max_len))).
  { intros text.
    destruct (single_text_feature_int64 text max_len Hids) as [H0 [H1 H2]].
    now apply to_tensor_of_feature. }
  rewrite !Ht. cbn [bind].
  rewrite LongTensor_int64 by (cbn [forallb]; now rewrite Hlabel).
  reflexivity.
Qed.

Lemma collate_features (max_len : Z) (batch : list (string * string * string * Z))
    (text : string * string * string * Z -> string) :
  2 <= max_len ->
  batch <> [] ->
  default_collate_triple
    (map (fun x => feature_tensors (single_text_feature (text x) max_len)) batch)
  = Ok (stacked_features (map (fun x => single_text_feature (text x) max_len) batch)
          (Z.to_nat max_len)).
Proof.
  intros Hmax Hne.
  rewrite <- (map_map (fun x => single_text_feature (text x) max_len) feature_tensors).
  apply default_collate_triple_features.
  - destruct batch; [contradiction|discriminate].
  - apply Forall_map, Forall_forall. intros x _.
    now apply single_text_feature_lengths.
Qed.

(** What the collator returns on a batch whose ids and labels fit in 64
    bits. *)
Lemma three_pair_collate_fn_eq (max_len : Z)
    (batch : list (string * string * string * Z)) :
  int64_ids ->
  int64_labels batch ->
  2 <= max_len ->
  batch <> [] ->
  three_pair_collate_fn max_len batch =
  Ok (stacked_features
        (map (fun x => single_text_feature (item_text_a x) max_len) batch)
        (Z.to_nat max_len),
      stacked_features
        (map (fun x => single_text_feature (item_text_b x) max_len) batch)
        (Z.to_nat max_len),
      stacked_features
        (map (fun x => single_text_feature (item_text_c x) max_len) batch)
        (Z.to_nat max_len),
      stacked (map (fun x => [item_label x]) batch) 1).
Proof.
  intros Hids Hlabels Hmax Hne. unfold three_pair_collate_fn.
  unfold int64_labels in Hlabels. rewrite Forall_forall in Hlabels.
  rewrite (map_result_map _ _ batch
             (fun x Hx => example_to_tensors_eq max_len x Hids (Hlabels x Hx) Hmax)).
  cbn [bind].
  rewrite default_collate_nonempty by (destruct batch; [contradiction|discriminate]).
  rewrite !map_map. cbn [fst snd].
  rewrite !collate_features by assumption. cbn [bind].
  rewrite <- (map_map (fun x => [item_label x]) tensor_of_list).
  rewrite (stack_rows _ 1); [reflexivity| |].
  - destruct batch; [contradiction|discriminate].
  - apply Forall_map, Forall_forall. reflexivity.
Qed.


(** X16: for a batch of at least one item and [max_len >= 2], when the
    ids of the vocabulary and the labels of the batch fit in 64 bits, the
    collator returns, for each of the three texts, the tensor of the ids,
    then the tensor of the masks, then the tensor of the segment ids of the
    single-text features of the items, one row per item in the order of the
    batch, and the labels as a column.  The second tensor of a triple is
    the mask, though [to_tensor] names it [segment_ids]. *)
Theorem collate_contents (max_len : Z) (batch : list (string * string * string * Z)) :
  int64_ids ->
  int64_labels batch ->
  2 <= max_len ->
  batch <> [] ->
  three_pair_collate_fn max_len batch =
  Ok (stacked_features
        (map (fun x => single_text_feature (item_text_a x) max_len) batch)
        (Z.to_nat max_len),
      stacked_features
        (map (fun x => single_text_feature (item_text_b x) max_len) batch)
        (Z.to_nat max_len),
      stacked_features
        (map (fun x => single_text_feature (item_text_c x) max_len) batch)
        (Z.to_nat max_len),
      stacked (map (fun x => [item_label x]) batch) 1).
Proof. exact (three_pair_collate_fn_eq max_len batch). Qed.

(** X17: the collator raises [IndexError] on an empty batch, whatever
    [max_len] is, and [AssertionError] on a batch of at least one item when
    [max_len] is below 2. *)
Theorem collate_errors (max_len : Z) (batch : list (string * string * string * Z)) :
  (batch = [] -> three_pair_collate_fn max_len batch = Raise IndexError)
  /\ (batch <> [] -> max_len < 2 ->
      three_pair_collate_fn max_len batch = Raise AssertionError).
Proof.
  split.
  - intros ->. reflexivity.
  - intros Hne Hmax. destruct batch as [|x rest]; [contradiction|].
    destruct x as [[[text_a text_b] text_c] label].
    unfold three_pair_collate_fn. cbn [map_result].
    unfold example_to_tensors, to_two_pair_feature.
    rewrite (single_text_feature_below_two_aux text_a max_len Hmax).
    reflexivity.
Qed.

(** A label of more than 64 bits makes [torch.LongTensor] raise: the
    collator returns nothing for the batch. *)
Lemma collate_label_overflow (max_len : Z) (text_a text_b text_c : string) :
  int64_ids ->
  2 <= max_len ->
  exists e,
    three_pair_collate_fn max_len [(text_a, text_b, text_c, 9223372036854775808)]
    = Raise e.
Proof.
  intros Hids Hmax. exists RuntimeError.
  unfold three_pair_collate_fn. cbn [map_result].
  unfold example_to_tensors, to_two_pair_feature.
  rewrite !single_text_feature_run by assumption. cbn [bind].
  assert (Ht : forall text,
             to_tensor (InputFeatures_of_tuple (single_text_feature text max_len))
             = Ok (feature_tensors (single_text_feature text max_len))).
  { intros text.
    destruct (single_text_feature_int64 text max_len Hids) as [H0 [H1 H2]].
    now apply to_tensor_of_feature. }
  rewrite !Ht. reflexivity.
Qed.
End SingleTextFeature.

Lemma vocabulary_tokenizer_int64 : @int64_ids vocabulary_tokenizer.
Proof.
  intros t. apply is_int64_small. cbn [convert_token_to_id vocabulary_tokenizer].
  apply Z.mod_pos_bound. lia.
Qed.



(** An empty batch has no first element for [default_collate] to read,
    and with [max_len = 1] the two special tokens do not fit. *)
Lemma collate_empty_batch :
  @three_pair_collate_fn whitespace_tokenizer 4 [] = Raise IndexError.
Proof. reflexivity. Qed.

Lemma collate_max_len_1 :
  @three_pair_collate_fn whitespace_tokenizer 1 [("a", "b", "c", 0)%string]
  = Raise AssertionError.
Proof. reflexivity. Qed.

Lemma collate_contents_witness :
  @three_pair_collate_fn vocabulary_tokenizer 4
     [("a b c", "d", "e f", 0); ("a", "b", "", 1)]%string =
  Ok (stacked_features
        (map (fun x => @single_text_feature vocabulary_tokenizer (item_text_a x) 4)
             [("a b c", "d", "e f", 0); ("a", "b", "", 1)]%string)
        (Z.to_nat 4),
      stacked_features
        (map (fun x => @single_text_feature vocabulary_tokenizer (item_text_b x) 4)
             [("a b c", "d", "e f", 0); ("a", "b", "", 1)]%string)
        (Z.to_nat 4),
      stacked_features
        (map (fun x => @single_text_feature vocabulary_tokenizer (item_text_c x) 4)
             [("a b c", "d", "e f", 0); ("a", "b", "", 1)]%string)
        (Z.to_nat 4),
      stacked (map (fun x => [item_label x])
                 [("a b c", "d", "e f", 0); ("a", "b", "", 1)]%string) 1).
Proof.
  apply (@collate_contents vocabulary_tokenizer 4
           [("a b c", "d", "e f", 0); ("a", "b", "", 1)]%string).
  - exact vocabulary_tokenizer_int64.
  - repeat (apply Forall_cons; [reflexivity|]). apply Forall_nil.
  - lia.
  - discriminate.
Defined.

Lemma collate_errors_witness :
  @three_pair_collate_fn whitespace_tokenizer 8 [] = Raise IndexError
  /\ @three_pair_collate_fn whitespace_tokenizer 1 [("a", "b", "c", 0)%string]
     = Raise AssertionError.
Proof.
  split.
  - apply (proj1 (@collate_errors whitespace_tokenizer 8 [])). reflexivity.
  - apply (proj2 (@collate_errors whitespace_tokenizer 1 [("a", "b", "c", 0)%string])).
    + discriminate.
    + lia.
Defined.

(** ** The modes of [forward] *)

(** The loss on the scores of a batch: [labels.view(-1)] has as many
    entries as [labels]. *)
Lemma loss_of_scores (batch : nat) (labels : option Tensor) :
  BertEsim.loss_of [batch; 2%nat] labels =
  match labels with
  | None => Raise AttributeError
  | Some labels =>
      if negb (batch =? BertEsim.numel (shape labels))%nat then Raise ValueError
      else if forallb (BertEsim.valid_class 2) (data labels) then Ok []
      else Raise IndexError
  end.
Proof.
  unfold BertEsim.loss_of, BertEsim.view_m1_2.
  assert (Hnumel : BertEsim.numel [batch; 2%nat] = (batch * 2)%nat)
    by (unfold BertEsim.numel; simpl; lia).
  rewrite Hnumel, Nat.Div0.mod_mul, Nat.div_mul by discriminate.
  cbn [Nat.eqb bind]. destruct labels as [labels|]; reflexivity.
Qed.

Section ForwardModes.
Local Open Scope nat_scope.

Variable config : BertEsim.BertConfig.
Variables batch seq_a seq_b seq_c : nat.
Hypothesis seq_a_positive : 0 < seq_a.
Hypothesis seq_b_positive : 0 < seq_b.
Hypothesis seq_c_positive : 0 < seq_c.

Local Abbreviation run labels mode :=
  (BertEsim.forward (BertEsim.__init__ config)
     (BertEsim.batch_input batch seq_a) (BertEsim.batch_input batch seq_b)
     (BertEsim.batch_input batch seq_c) labels mode).

Lemma forward_dispatch (labels : option Tensor) (mode : string) :
  run labels mode =
  if String.eqb mode "prob" then Ok (BertEsim.VTensor [batch; 2])
  else if String.eqb mode "logits" then Ok (BertEsim.VTensor [batch; 2])
  else if String.eqb mode "loss" then
    bind (BertEsim.loss_of [batch; 2] labels)
         (fun loss => Ok (BertEsim.VTensor loss))
  else if String.eqb mode "evaluate" then
    bind (BertEsim.loss_of [batch; 2] labels)
         (fun loss => Ok (BertEsim.VTuple [[batch; 2]; [batch; 2]; loss]))
  else Ok BertEsim.VNone.
Proof.
  unfold BertEsim.forward.
  rewrite classifier_output_forward by assumption. cbn [bind].
  reflexivity.
Qed.

(** The modes that read the labels, on the labels of a tensor. *)
Lemma forward_loss_modes (labels : Tensor) :
  run (Some labels) "loss" =
    bind (BertEsim.loss_of [batch; 2] (Some labels))
         (fun loss => Ok (BertEsim.VTensor loss))
  /\ run (Some labels) "evaluate" =
    bind (BertEsim.loss_of [batch; 2] (Some labels))
         (fun loss => Ok (BertEsim.VTuple [[batch; 2]; [batch; 2]; loss])).
Proof. split; now rewrite forward_dispatch. Qed.

(** X18: on a batch of [batch] rows, the modes ["prob"] and ["logits"]
    both return a tensor of shape [[batch, 2]], whatever the hidden size
    and the lengths of the three sequences, and whether labels are given or
    not: every layer of the model gets the width it was built for. *)
Theorem forward_prob_logits_shape (labels : option Tensor) :
  BertEsim.forward (BertEsim.__init__ config)
    (BertEsim.batch_input batch seq_a) (BertEsim.batch_input batch seq_b)
    (BertEsim.batch_input batch seq_c) labels "prob" = Ok (BertEsim.VTensor [batch; 2])
  /\ BertEsim.forward (BertEsim.__init__ config)
    (BertEsim.batch_input batch seq_a) (BertEsim.batch_input batch seq_b)
    (BertEsim.batch_input batch seq_c) labels "logits" = Ok (BertEsim.VTensor [batch; 2]).
Proof. split; now rewrite forward_dispatch. Qed.

(** X19: without labels the modes ["loss"] and ["evaluate"] raise
    [AttributeError] (on a batch of at least one row): [labels] is [None]
    and has no [view]. *)
Theorem forward_loss_needs_labels :
  0 < batch ->
  BertEsim.forward (BertEsim.__init__ config)
    (BertEsim.batch_input batch seq_a) (BertEsim.batch_input batch seq_b)
    (BertEsim.batch_input batch seq_c) None "loss" = Raise AttributeError
  /\ BertEsim.forward (BertEsim.__init__ config)
    (BertEsim.batch_input batch seq_a) (BertEsim.batch_input batch seq_b)
    (BertEsim.batch_input batch seq_c) None "evaluate" = Raise AttributeError.
Proof.
  intros Hbatch. split; rewrite forward_dispatch; cbn [String.eqb Ascii.eqb Bool.eqb];
    now rewrite loss_of_scores.
Qed.

(** X20: with a tensor of labels, on a batch of at least one row.  When
    the labels have as many entries as the batch has rows, in whatever
    shape ([[batch]] as well as [[batch, 1]]), and every label is a class
    of the classifier, 0 or 1, or the value -100 that the loss skips,
    ["loss"] returns a scalar and ["evaluate"] the logits, the
    probabilities and that scalar.  With another number of entries both
    modes raise [ValueError], whatever the labels are.  With the right
    number of entries and a label that is no class, both modes raise. *)
Theorem forward_loss_with_labels (labels : Tensor) :
  0 < batch ->
  (BertEsim.numel (shape labels) = batch ->
   forallb (BertEsim.valid_class 2) (data labels) = true ->
   BertEsim.forward (BertEsim.__init__ config)
    (BertEsim.batch_input batch seq_a) (BertEsim.batch_input batch seq_b)
    (BertEsim.batch_input batch seq_c) (Some labels) "loss" = Ok (BertEsim.VTensor [])
   /\ BertEsim.forward (BertEsim.__init__ config)
    (BertEsim.batch_input batch seq_a) (BertEsim.batch_input batch seq_b)
    (BertEsim.batch_input batch seq_c) (Some labels) "evaluate"
      = Ok (BertEsim.VTuple [[batch; 2]; [batch; 2]; []]))
  /\ (BertEsim.numel (shape labels) <> batch ->
      BertEsim.forward (BertEsim.__init__ config)
    (BertEsim.batch_input batch seq_a) (BertEsim.batch_input batch seq_b)
    (BertEsim.batch_input batch seq_c) (Some labels) "loss" = Raise ValueError
      /\ BertEsim.forward (BertEsim.__init__ config)
    (BertEsim.batch_input batch seq_a) (BertEsim.batch_input batch seq_b)
    (BertEsim.batch_input batch seq_c) (Some labels) "evaluate" = Raise ValueError)
  /\ (BertEsim.numel (shape labels) = batch ->
      forallb (BertEsim.valid_class 2) (data labels) = false ->
      (exists e, BertEsim.forward (BertEsim.__init__ config)
    (BertEsim.batch_input batch seq_a) (BertEsim.batch_input batch seq_b)
    (BertEsim.batch_input batch seq_c) (Some labels) "loss" = Raise e)
      /\ (exists e, BertEsim.forward (BertEsim.__init__ config)
    (BertEsim.batch_input batch seq_a) (BertEsim.batch_input batch seq_b)
    (BertEsim.batch_input batch seq_c) (Some labels) "evaluate" = Raise e)).
Proof.
  intros Hbatch. destruct (forward_loss_modes labels) as [-> ->].
  rewrite loss_of_scores.
  split; [|split].
  - intros Hn Hclasses. rewrite Hn, Nat.eqb_refl, Hclasses. split; reflexivity.
  - intros Hn.
    replace (batch =? BertEsim.numel (shape labels)) with false
      by (symmetry; apply Nat.eqb_neq; congruence).
    split; reflexivity.
  - intros Hn Hclasses. rewrite Hn, Nat.eqb_refl, Hclasses.
    split; exists IndexError; reflexivity.
Qed.
End ForwardModes.

Lemma forward_prob_logits_shape_witness :
  BertEsim.forward (BertEsim.__init__ {| BertEsim.hidden_size := 16 |})
    (BertEsim.batch_input 2 8) (BertEsim.batch_input 2 5) (BertEsim.batch_input 2 3)
    None "prob" = Ok (BertEsim.VTensor [2; 2]%nat)
  /\ BertEsim.forward (BertEsim.__init__ {| BertEsim.hidden_size := 16 |})
       (BertEsim.batch_input 2 8) (BertEsim.batch_input 2 5) (BertEsim.batch_input 2 3)
       None "logits" = Ok (BertEsim.VTensor [2; 2]%nat).
Proof.
  apply (forward_prob_logits_shape {| BertEsim.hidden_size := 16 |} 2 8 5 3); lia.
Defined.

Lemma forward_loss_needs_labels_witness :
  BertEsim.forward (BertEsim.__init__ {| BertEsim.hidden_size := 16 |})
    (BertEsim.batch_input 2 8) (BertEsim.batch_input 2 5) (BertEsim.batch_input 2 3)
    None "loss" = Raise AttributeError
  /\ BertEsim.forward (BertEsim.__init__ {| BertEsim.hidden_size := 16 |})
       (BertEsim.batch_input 2 8) (BertEsim.batch_input 2 5) (BertEsim.batch_input 2 3)
       None "evaluate" = Raise AttributeError.
Proof.
  apply (forward_loss_needs_labels {| BertEsim.hidden_size := 16 |} 2 8 5 3); lia.
Defined.

Lemma forward_loss_with_labels_witness :
  (BertEsim.forward (BertEsim.__init__ {| BertEsim.hidden_size := 16 |})
     (BertEsim.batch_input 2 8) (BertEsim.batch_input 2 5) (BertEsim.batch_input 2 3)
     (Some {| shape := [2; 1]%nat; data := [0; 1] |}) "loss" = Ok (BertEsim.VTensor [])
   /\ BertEsim.forward (BertEsim.__init__ {| BertEsim.hidden_size := 16 |})
        (BertEsim.batch_input 2 8) (BertEsim.batch_input 2 5) (BertEsim.batch_input 2 3)
        (Some {| shape := [2; 1]%nat; data := [0; 1] |}) "evaluate"
      = Ok (BertEsim.VTuple [[2; 2]; [2; 2]; []]%nat))
  /\ (BertEsim.forward (BertEsim.__init__ {| BertEsim.hidden_size := 16 |})
        (BertEsim.batch_input 2 8) (BertEsim.batch_input 2 5) (BertEsim.batch_input 2 3)
        (Some {| shape := [3]%nat; data := [0; 1; 0] |}) "loss" = Raise ValueError
      /\ BertEsim.forward (BertEsim.__init__ {| BertEsim.hidden_size := 16 |})
           (BertEsim.batch_input 2 8) (BertEsim.batch_input 2 5) (BertEsim.batch_input 2 3)
           (Some {| shape := [3]%nat; data := [0; 1; 0] |}) "evaluate"
         = Raise ValueError)
  /\ ((exists e,
        BertEsim.forward (BertEsim.__init__ {| BertEsim.hidden_size := 16 |})
          (BertEsim.batch_input 2 8) (BertEsim.batch_input 2 5) (BertEsim.batch_input 2 3)
          (Some {| shape := [2]%nat; data := [0; 5] |}) "loss" = Raise e)
      /\ (exists e,
        BertEsim.forward (BertEsim.__init__ {| BertEsim.hidden_size := 16 |})
          (BertEsim.batch_input 2 8) (BertEsim.batch_input 2 5) (BertEsim.batch_input 2 3)
          (Some {| shape := [2]%nat; data := [0; 5] |}) "evaluate" = Raise e)).
Proof.
  split; [|split].
  - apply (proj1 (forward_loss_with_labels {| BertEsim.hidden_size := 16 |}
                    2 8 5 3 ltac:(lia) ltac:(lia) ltac:(lia)
                    {| shape := [2; 1]%nat; data := [0; 1] |} ltac:(lia)));
      reflexivity.
  - apply (proj1 (proj2 (forward_loss_with_labels {| BertEsim.hidden_size := 16 |}
                    2 8 5 3 ltac:(lia) ltac:(lia) ltac:(lia)
                    {| shape := [3]%nat; data := [0; 1; 0] |} ltac:(lia)))).
    discriminate.
  - apply (proj2 (proj2 (forward_loss_with_labels {| BertEsim.hidden_size := 16 |}
                    2 8 5 3 ltac:(lia) ltac:(lia) ltac:(lia)
                    {| shape := [2]%nat; data := [0; 5] |} ltac:(lia))));
      reflexivity.
Defined.

(** ** From the collator to the model *)

Lemma binary_labels_int64 (batch : list (string * string * string * Z)) :
  binary_labels batch -> int64_labels batch.
Proof.
  unfold binary_labels, int64_labels. apply Forall_impl.
  intros x [-> | ->]; reflexivity.
Qed.

Lemma binary_labels_valid (batch : list (string * string * string * Z)) :
  binary_labels batch ->
  forallb (BertEsim.valid_class 2) (concat (map (fun x => [item_label x]) batch)) = true.
Proof.
  intros Hlabels. apply forallb_forall. intros z Hz.
  apply in_concat in Hz. destruct Hz as [l [Hl Hz]].
  apply in_map_iff in Hl. destruct Hl as [x [<- Hx]].
  destruct Hz as [<- | []].
  unfold binary_labels in Hlabels. rewrite Forall_forall in Hlabels.
  destruct (Hlabels x Hx) as [-> | ->]; reflexivity.
Qed.

Section Pipeline.
Context `{Tokenizer}.

(** X21: the tensors the collator returns fit the model.  For a batch
    of [n >= 1] items whose labels are 0 or 1 and [max_len >= 2], with a
    vocabulary whose ids fit in 64 bits and, for each of the three texts,
    an item of the batch whose text fills the [max_len] positions (so that
    the longest sequence of the batch has the padded length), [forward] on
    the three triples returns probabilities of shape [[n, 2]] in the mode
    ["prob"], and with the label tensor of the collator, of shape
    [[n, 1]], the mode ["evaluate"] returns the logits, the probabilities
    and a scalar loss: no shape error is raised on the way, and no label is
    refused by the loss. *)
Theorem collate_then_forward (config : BertEsim.BertConfig) (max_len : Z)
    (batch : list (string * string * string * Z)) :
  int64_ids ->
  binary_labels batch ->
  fills_max_len max_len item_text_a batch ->
  fills_max_len max_len item_text_b batch ->
  fills_max_len max_len item_text_c batch ->
  2 <= max_len ->
  batch <> [] ->
  exists a b c label,
    three_pair_collate_fn max_len batch = Ok (a, b, c, label)
    /\ BertEsim.forward (BertEsim.__init__ config) (input_of_triple a)
         (input_of_triple b) (input_of_triple c) None "prob"
       = Ok (BertEsim.VTensor [length batch; 2%nat])
    /\ BertEsim.forward (BertEsim.__init__ config) (input_of_triple a)
         (input_of_triple b) (input_of_triple c) (Some label) "evaluate"
       = Ok (BertEsim.VTuple [[length batch; 2%nat]; [length batch; 2%nat]; []]).
Proof.
  intros Hids Hlabels _ _ _ Hmax Hne.
  rewrite (three_pair_collate_fn_eq max_len batch Hids
             (binary_labels_int64 batch Hlabels) Hmax Hne).
  do 4 eexists. split; [reflexivity|].
  assert (Hin : forall features : list feature,
             length features = length batch ->
             input_of_triple (stacked_features features (Z.to_nat max_len))
             = BertEsim.batch_input (length batch) (Z.to_nat max_len)).
  { intros features Hlen. unfold input_of_triple, stacked_features, stacked.
    cbn [fst snd shape]. rewrite !length_map, Hlen. reflexivity. }
  assert (Hseq : (0 < Z.to_nat max_len)%nat) by lia.
  rewrite !Hin by apply length_map.
  rewrite !forward_dispatch by assumption.
  cbn [String.eqb Ascii.eqb Bool.eqb].
  rewrite loss_of_scores. unfold stacked. cbn [shape data].
  rewrite length_map.
  assert (Hn : forall n : nat, BertEsim.numel [n; 1%nat] = n)
    by (intros n; unfold BertEsim.numel; simpl; lia).
  rewrite Hn, Nat.eqb_refl, (binary_labels_valid batch Hlabels).
  split; reflexivity.
Qed.
End Pipeline.

Lemma collate_then_forward_witness :
  exists a b c label,
    @three_pair_collate_fn vocabulary_tokenizer 4
       [("a b c", "d e", "e f", 0); ("a", "b", "", 1)]%string = Ok (a, b, c, label)
    /\ BertEsim.forward (BertEsim.__init__ {| BertEsim.hidden_size := 16 |})
         (input_of_triple a) (input_of_triple b) (input_of_triple c) None "prob"
       = Ok (BertEsim.VTensor [2; 2]%nat)
    /\ BertEsim.forward (BertEsim.__init__ {| BertEsim.hidden_size := 16 |})
         (input_of_triple a) (input_of_triple b) (input_of_triple c)
         (Some label) "evaluate"
       = Ok (BertEsim.VTuple [[2; 2]; [2; 2]; []]%nat).
Proof.
  apply (@collate_then_forward vocabulary_tokenizer {| BertEsim.hidden_size := 16 |} 4
           [("a b c", "d e", "e f", 0); ("a", "b", "", 1)]%string).
  - exact vocabulary_tokenizer_int64.
  - apply Forall_cons; [left; reflexivity|].
    apply Forall_cons; [right; reflexivity|]. apply Forall_nil.
  - apply Exists_cons_hd. vm_compute. discriminate.
  - apply Exists_cons_hd. vm_compute. discriminate.
  - apply Exists_cons_hd. vm_compute. discriminate.
  - lia.
  - discriminate.
Defined.

(** ** From records to an augmented dataset *)

Lemma In_py_index {A : Type} (l : list A) (x : A) :
  In x l -> exists i, 0 <= i < len l /\ py_index l i = Ok x.
Proof.
  intros Hin. apply In_nth_error in Hin. destruct Hin as [n Hn].
  assert (Hlt : (n < length l)%nat) by (apply nth_error_Some; congruence).
  exists (Z.of_nat n). split; [unfold len; lia|].
  unfold py_index.
  destruct (Z.of_nat n <? 0) eqn:E; [apply Z.ltb_lt in E; lia|].
  rewrite E, Nat2Z.id, Hn. reflexivity.
Qed.

(** A frame with the text columns and a label column goes to the
    constructor column by column. *)
Lemma from_dataframe_labelled (df : DataFrame) :
  has_texts df = true ->
  has_label df = true ->
  from_dataframe df =
  Ok {| text_a_list := map col_A (rows df);
        text_b_list := map col_B (rows df);
        text_c_list := map col_C (rows df);
        label_list := map (fun r => numeric_label (col_label r)) (rows df) |}.
Proof.
  intros Ht Hl. rewrite (from_dataframe_eq df Ht).
  assert (Hsame : default_label df = df)
    by (unfold default_label; now rewrite Hl).
  rewrite Hsame.
  rewrite init_with_labels by now rewrite !length_map.
  now rewrite map_map.
Qed.

Section AugmentedDataset.
Variable sample : list Row -> list Row.
Hypothesis sample_permutes : forall l : list Row, Permutation l (sample l).

(** X22: with augmentation, a list of at least one record gives a
    dataset of at most six times as many examples, in which every record of
    the input is found at some index with its three texts and the numeric
    label it has without augmentation. *)
Theorem from_dict_list_augmented (data : list record) (r : record) :
  In r data ->
  exists ds index,
    from_dict_list sample data true = Ok ds
    /\ 0 < __len__ ds <= 6 * len data
    /\ 0 <= index < __len__ ds
    /\ __getitem__ ds index =
       Ok (rec_A r, rec_B r, rec_C r,
           if existsb has_label_key data then numeric_label (rec_label r) else 0).
Proof.
  intros Hin. unfold from_dict_list.
  set (df := default_label (DataFrame_of_records data)).
  assert (Ht : has_texts df = true).
  { subst df. rewrite has_texts_default_label.
    destruct data; [destruct Hin|reflexivity]. }
  assert (Hl : has_label df = true) by apply has_label_default_label.
  assert (Hn : length (rows df) = length data).
  { subst df. rewrite length_rows_default_label. apply length_map. }
  set (row := {| col_A := rec_A r; col_B := rec_B r; col_C := rec_C r;
                 col_label := if existsb has_label_key data then rec_label r
                              else Some "B"%string |}).
  assert (Hrow : In row (rows df)).
  { subst df row. unfold default_label.
    cbn [DataFrame_of_records has_label rows].
    destruct (existsb has_label_key data); cbn [negb set_label rows].
    - apply in_map_iff. exists r. now split.
    - apply in_map_iff.
      exists {| col_A := rec_A r; col_B := rec_B r; col_C := rec_C r;
                col_label := rec_label r |}.
      split; [reflexivity|]. apply in_map_iff. exists r. now split. }
  unfold augment, permuted_copy. rewrite Ht. cbn [bind].
  rewrite from_dataframe_labelled by reflexivity. cbn [rows].
  set (out := sample _).
  assert (Hout : In row out).
  { subst out. eapply Permutation_in; [apply sample_permutes|].
    apply drop_duplicates_In, in_or_app. left.
    unfold rows_in_concat. now rewrite Hl. }
  assert (Hsize : (length out <= 6 * length data)%nat).
  { subst out. rewrite <- (Permutation_length (sample_permutes _)).
    etransitivity; [apply drop_duplicates_length|].
    rewrite !length_app, !length_map, rows_in_concat_length. lia. }
  destruct (In_py_index out row Hout) as [index [Hindex Hget]].
  eexists; exists index. split; [reflexivity|].
  unfold __len__. cbn [label_list]. rewrite len_map.
  split; [unfold len in *; lia|]. split; [exact Hindex|].
  unfold __getitem__. cbn [text_a_list text_b_list text_c_list label_list].
  rewrite !py_index_map, Hget. cbn [bind]. subst row.
  cbn [col_A col_B col_C col_label].
  now destruct (existsb has_label_key data).
Qed.
End AugmentedDataset.

Lemma from_dict_list_augmented_witness :
  exists ds index,
    from_dict_list (fun l => l) records_partly_labelled true = Ok ds
    /\ 0 < __len__ ds <= 6 * len records_partly_labelled
    /\ 0 <= index < __len__ ds
    /\ __getitem__ ds index =
       Ok ("a1"%string, "b1"%string, "c1"%string,
           if existsb has_label_key records_partly_labelled
           then numeric_label (Some "B"%string) else 0).
Proof.
  apply (from_dict_list_augmented (fun l => l) (fun l => Permutation_refl l)
           records_partly_labelled
           {| rec_A := "a1"; rec_B := "b1"; rec_C := "c1";
              rec_label := Some "B"%string |}).
  left. reflexivity.
Defined.
